(** * annonces_v2: the listing-alert webhook of [app.py]

    A shallow embedding of the Python service, function by function:
    the dedup store ([_seen], [gc_seen], [dedup_key]), the challenge
    detector ([looks_like_challenge]), the field extractor ([clean_int],
    [extract_fields], with the five regular expressions it searches), the
    message formatter ([format_message]), the page fetch and the
    notification ([fetch_page_text], [telegram_send], as far as the
    service decides anything in them), the request handler ([webhook]),
    and the detector of the smoke test ([smoke.py]).

    Conventions.
    - A Python [str] is a list of Unicode code points ([list N]).  String
      literals of the source are written [py "..."]: the UTF-8 bytes of
      the Rocq literal, decoded.
    - A Python [int] is a [Z]; [None]-or-value is an [option].
    - A [float] timestamp is a rational ([Q]): every finite float is one.
      The rounding of the subtraction [t - v] is not modelled.
    - The handler's effects (clock, browser, Telegram, the global [_seen])
      are threaded explicitly: an oracle record answers the external
      calls, a state record carries the store and the list of calls made. *)

From Stdlib Require Import QArith Lqa.
From Stdlib Require Import DecimalString DecimalPos.
From stdpp Require Import gmap strings list fin_maps.

Local Open Scope N_scope.

(* ===================================================================== *)
(** * Python strings *)
(* ===================================================================== *)

Module PyStr.

(** [s.encode("utf-8")], on code points below U+110000 (surrogates, which
    Python refuses to encode, do not occur in a validated URL). *)
Definition utf8_encode_char (c : N) : list N :=
  if c <? 128 then [c]
  else if c <? 2048 then [192 + c / 64; 128 + c mod 64]
  else if c <? 65536 then [224 + c / 4096; 128 + (c / 64) mod 64; 128 + c mod 64]
  else [240 + c / 262144; 128 + (c / 4096) mod 64; 128 + (c / 64) mod 64;
        128 + c mod 64].

Definition utf8_encode (s : list N) : list N := concat (map utf8_encode_char s).

(** Decoder for the literals of this file (well-formed UTF-8). *)
Fixpoint utf8_decode (bs : list N) : list N :=
  match bs with
  | [] => []
  | b0 :: r0 =>
    if b0 <? 128 then b0 :: utf8_decode r0
    else match r0 with
    | [] => []
    | b1 :: r1 =>
      if b0 <? 224 then ((b0 - 192) * 64 + (b1 - 128)) :: utf8_decode r1
      else match r1 with
      | [] => []
      | b2 :: r2 =>
        if b0 <? 240
        then ((b0 - 224) * 4096 + (b1 - 128) * 64 + (b2 - 128)) :: utf8_decode r2
        else match r2 with
        | [] => []
        | b3 :: r3 =>
          ((b0 - 240) * 262144 + (b1 - 128) * 4096 + (b2 - 128) * 64 + (b3 - 128))
            :: utf8_decode r3
        end
      end
    end
  end.

Definition py (s : string) : list N :=
  utf8_decode (map Ascii.N_of_ascii (String.list_ascii_of_string s)).

(** [needle in hay] *)
Fixpoint startswith (needle hay : list N) : bool :=
  match needle, hay with
  | [], _ => true
  | _ :: _, [] => false
  | a :: n', b :: h' => (a =? b) && startswith n' h'
  end.

Fixpoint contains (needle hay : list N) : bool :=
  startswith needle hay ||
  match hay with
  | [] => false
  | _ :: h' => contains needle h'
  end.

(** ["sep".join(parts)] *)
Fixpoint join (sep : list N) (parts : list (list N)) : list N :=
  match parts with
  | [] => []
  | [p] => p
  | p :: rest => p ++ sep ++ join sep rest
  end.

(** [s.replace(old, new)] for a one-character [old]. *)
Definition replace_char (old : N) (new : list N) (s : list N) : list N :=
  concat (map (fun c => if c =? old then new else [c]) s).

(** [s[i:j]] for [0 <= i <= j]. *)
Definition slice (s : list N) (i j : nat) : list N := take (j - i) (drop i s).

(** [str(n)] and [f"{n}"] for an int. *)
Definition str_of_int (n : Z) : list N :=
  map Ascii.N_of_ascii
      (String.list_ascii_of_string (NilZero.string_of_int (Z.to_int n))).

End PyStr.
Export PyStr.

(* ===================================================================== *)
(** * The Unicode tables the interpreter consults *)
(* ===================================================================== *)

(** [Py_UNICODE_ISSPACE]: what [\s] and [str.strip()] call whitespace. *)
Definition uni_isspace (c : N) : bool :=
  ((9 <=? c) && (c <=? 13)) || ((28 <=? c) && (c <=? 32)) ||
  (c =? 133) || (c =? 160) || (c =? 5760) ||
  ((8192 <=? c) && (c <=? 8202)) || (c =? 8232) || (c =? 8233) ||
  (c =? 8239) || (c =? 8287) || (c =? 12288).

(** The character database is not part of the repository.  The rest of
    it is a parameter: the simple lower-case mapping used by [(?i)], the
    alphanumeric test behind [\b], the decimal digits behind [\d] and
    [int()], and [str.lower()]. *)
Record UnicodeData := {
  uni_tolower : N -> N;
  uni_isalnum : N -> bool;
  uni_decimal : N -> option Z;
  str_lower : list N -> list N
}.

Module Tables.

Definition is_ascii_digit (c : N) : bool := (48 <=? c) && (c <=? 57).
Definition is_ascii_upper (c : N) : bool := (65 <=? c) && (c <=? 90).
Definition is_ascii_lower (c : N) : bool := (97 <=? c) && (c <=? 122).

(** Greek letters of U+0386..U+03CE (monotonic Greek). *)
Definition is_greek_letter (c : N) : bool :=
  (c =? 902) || ((904 <=? c) && (c <=? 906)) || (c =? 908) ||
  ((910 <=? c) && (c <=? 929)) || ((931 <=? c) && (c <=? 974)).

(** The code points whose properties this file relies on: ASCII, the
    white space of [uni_isspace], SUPERSCRIPT TWO, EURO SIGN and the
    Greek letters above. *)
Definition tabulated (c : N) : bool :=
  (c <? 128) || uni_isspace c || (c =? 178) || (c =? 8364) || is_greek_letter c.

Definition ref_tolower (c : N) : N :=
  if is_ascii_upper c then c + 32
  else if c =? 902 then 940
  else if (904 <=? c) && (c <=? 906) then c + 37
  else if c =? 908 then 972
  else if (910 <=? c) && (c <=? 911) then c + 63
  else if ((913 <=? c) && (c <=? 929)) || ((931 <=? c) && (c <=? 939)) then c + 32
  else c.

(** ['²'.isalnum()] holds: the superscript is a digit ([isdigit]), though
    not a decimal. *)
Definition ref_isalnum (c : N) : bool :=
  is_ascii_digit c || is_ascii_upper c || is_ascii_lower c ||
  (c =? 178) || is_greek_letter c.

Definition ref_decimal (c : N) : option Z :=
  if is_ascii_digit c then Some (Z.of_N (c - 48)) else None.

Definition is_ascii (s : list N) : bool := forallb (fun c => c <? 128) s.

(** A database conforms when it agrees with the reference values on the
    tabulated code points, and lower-cases ASCII strings char by char. *)
Record conforms (U : UnicodeData) : Prop := {
  conf_tolower : forall c, tabulated c = true -> uni_tolower U c = ref_tolower c;
  conf_isalnum : forall c, tabulated c = true -> uni_isalnum U c = ref_isalnum c;
  conf_decimal : forall c, tabulated c = true -> uni_decimal U c = ref_decimal c;
  conf_lower : forall s, is_ascii s = true -> str_lower U s = map ref_tolower s
}.

(** The reference values, extended by "caseless, not alphanumeric, not a
    digit" outside the tabulated set. *)
Definition reference : UnicodeData := {|
  uni_tolower := ref_tolower;
  uni_isalnum := ref_isalnum;
  uni_decimal := ref_decimal;
  str_lower := map ref_tolower
|}.

End Tables.
Export Tables.

(* ===================================================================== *)
(** * Regular expressions: the fragment of [re] the extractor uses *)
(* ===================================================================== *)

Module Re.

(** A character of the subject string together with the two properties
    the matcher reads from the database. *)
Record uchar := { u_code : N; u_lower : N; u_word : bool }.

(** [\w] on a [str] pattern: alphanumeric or underscore. *)
Definition classify (U : UnicodeData) (c : N) : uchar :=
  {| u_code := c; u_lower := uni_tolower U c;
     u_word := uni_isalnum U c || (c =? 95) |}.

Inductive cset_item :=
| CRange (lo hi : N)
| CLit (c : N)
| CSpace.

(** Compiled patterns.  [Lit] is [LITERAL]; [LitI] is the ignore-case
    literal ([LITERAL_UNI_IGNORE], [IN_UNI_IGNORE]): the lower-cased
    subject character must be one of the listed code points; [In_] is a
    character class; [Boundary] is [\b]; [Repeat] is greedy. *)
Inductive regex :=
| Empty
| Lit (c : N)
| LitI (los : list N)
| In_ (negate : bool) (items : list cset_item)
| Boundary
| Seq (r1 r2 : regex)
| Alt (r1 r2 : regex)
| Repeat (lo : nat) (hi : option nat) (r : regex)
| Group (n : nat) (r : regex).

Definition item_test (c : N) (i : cset_item) : bool :=
  match i with
  | CRange lo hi => (lo <=? c) && (c <=? hi)
  | CLit x => c =? x
  | CSpace => uni_isspace c
  end.

Definition in_set (negate : bool) (items : list cset_item) (c : uchar) : bool :=
  xorb negate (existsb (item_test (u_code c)) items).

Definition lit_test (x : N) (c : uchar) : bool := u_code c =? x.

Definition liti_test (los : list N) (c : uchar) : bool :=
  existsb (N.eqb (u_lower c)) los.

(** Matcher state: the character before the cursor (for [\b]), the rest
    of the subject, the cursor, and the spans of the groups closed so
    far (most recent first). *)
Record mstate := {
  m_prev : option uchar;
  m_rest : list uchar;
  m_pos : nat;
  m_caps : list (nat * (nat * nat))
}.

Definition is_word (c : option uchar) : bool :=
  match c with Some x => u_word x | None => false end.

Definition at_boundary (s : mstate) : bool :=
  xorb (is_word (m_prev s)) (is_word (head (m_rest s))).

Definition step_char (test : uchar -> bool)
    (k : mstate -> option mstate) (s : mstate) : option mstate :=
  match m_rest s with
  | c :: tl =>
    if test c
    then k {| m_prev := Some c; m_rest := tl; m_pos := S (m_pos s);
              m_caps := m_caps s |}
    else None
  | [] => None
  end.

Definition close_group (n : nat) (start : nat) (s : mstate) : mstate :=
  {| m_prev := m_prev s; m_rest := m_rest s; m_pos := m_pos s;
     m_caps := (n, (start, m_pos s)) :: m_caps s |}.

Definition below (count : nat) (hi : option nat) : bool :=
  match hi with Some h => (count <? h)%nat | None => true end.

Definition or_else {A} (x : option A) (y : option A) : option A :=
  match x with Some _ => x | None => y end.

(** The greedy repetition [body{lo,hi}] followed by [k]: one more
    iteration is tried first, stopping is the fallback.  The loop is
    bounded by [fuel], which [m] sets to the length of the remaining
    subject plus one; every repeated body in this file consumes at least
    one character, so the bound is never the reason the loop stops. *)
Fixpoint repeat_loop (body : (mstate -> option mstate) -> mstate -> option mstate)
    (lo : nat) (hi : option nat) (k : mstate -> option mstate)
    (fuel count : nat) (s : mstate) {struct fuel} : option mstate :=
  let stop := if (lo <=? count)%nat then k s else None in
  match fuel with
  | O => stop
  | S fuel' =>
    if below count hi
    then or_else (body (repeat_loop body lo hi k fuel' (S count)) s) stop
    else stop
  end.

(** Backtracking matcher in continuation-passing style: the first
    success in priority order (greedy repetition first, alternatives left
    to right) is the match [re] reports. *)
Fixpoint m (r : regex) (k : mstate -> option mstate) (s : mstate)
    {struct r} : option mstate :=
  match r with
  | Empty => k s
  | Lit x => step_char (lit_test x) k s
  | LitI los => step_char (liti_test los) k s
  | In_ neg items => step_char (in_set neg items) k s
  | Boundary => if at_boundary s then k s else None
  | Seq r1 r2 => m r1 (m r2 k) s
  | Alt r1 r2 => or_else (m r1 k s) (m r2 k s)
  | Group n r1 => m r1 (fun s' => k (close_group n (m_pos s) s')) s
  | Repeat lo hi r1 => repeat_loop (m r1) lo hi k (S (length (m_rest s))) O s
  end.

(** The state after the characters [run] have been consumed. *)
Fixpoint consume (run : list uchar) (s : mstate) : mstate :=
  match run with
  | [] => s
  | c :: run' =>
    consume run' {| m_prev := Some c; m_rest := tail (m_rest s);
                    m_pos := S (m_pos s); m_caps := m_caps s |}
  end.

Fixpoint ngroups (r : regex) : nat :=
  match r with
  | Seq r1 r2 | Alt r1 r2 => Nat.max (ngroups r1) (ngroups r2)
  | Repeat _ _ r1 => ngroups r1
  | Group n r1 => Nat.max n (ngroups r1)
  | _ => O
  end.

(** A match object: the subject, the number of groups of the pattern and
    the final matcher state. *)
Record Match := {
  mt_string : list N;
  mt_ngroups : nat;
  mt_start : nat;
  mt_end : nat;
  mt_caps : list (nat * (nat * nat))
}.

Fixpoint span_of (n : nat) (caps : list (nat * (nat * nat))) : option (nat * nat) :=
  match caps with
  | [] => None
  | (i, sp) :: rest => if (i =? n)%nat then Some sp else span_of n rest
  end.

(** [m.group(n)] for [n >= 1]: [None] when the group did not take part. *)
Definition group (mt : Match) (n : nat) : option (list N) :=
  match span_of n (mt_caps mt) with
  | Some (i, j) => Some (slice (mt_string mt) i j)
  | None => None
  end.

(** [m.groups()] *)
Definition groups (mt : Match) : list (option (list N)) :=
  map (group mt) (seq 1 (mt_ngroups mt)).

Definition start_state (prev : option uchar) (rest : list uchar) (pos : nat) : mstate :=
  {| m_prev := prev; m_rest := rest; m_pos := pos; m_caps := [] |}.

(** Leftmost start position first. *)
Fixpoint search_from (r : regex) (prev : option uchar) (rest : list uchar)
    (pos : nat) : option (nat * mstate) :=
  match m r Some (start_state prev rest pos) with
  | Some s => Some (pos, s)
  | None =>
    match rest with
    | [] => None
    | c :: tl => search_from r (Some c) tl (S pos)
    end
  end.

(** [re.search(pattern, text)] *)
Definition search (U : UnicodeData) (r : regex) (text : list N) : option Match :=
  match search_from r None (map (classify U) text) O with
  | Some (st, s) =>
    Some {| mt_string := text; mt_ngroups := ngroups r; mt_start := st;
            mt_end := m_pos s; mt_caps := m_caps s |}
  | None => None
  end.

(** The case equivalences of [re]'s compiler: lower-case characters that
    share an upper-case form match one another under [(?i)]. *)
Definition sre_equivalences : list (list N) :=
  [ [105; 305]; [115; 383]; [181; 956]; [837; 953; 8126]; [912; 8147];
    [944; 8163]; [946; 976]; [949; 1013]; [952; 977]; [954; 1008];
    [960; 982]; [961; 1009]; [962; 963]; [966; 981]; [1074; 7296];
    [1076; 7297]; [1086; 7298]; [1089; 7299]; [1090; 7300; 7301];
    [1098; 7302]; [1123; 7303]; [7304; 42571]; [7777; 7835];
    [64261; 64262] ].

Definition sre_fixes (lo : N) : list N :=
  concat (map (fun cls =>
                 if existsb (N.eqb lo) cls
                 then filter (fun x => negb (x =? lo)) cls
                 else [])
              sre_equivalences).

(** A letter of a [(?i)] pattern, given lower-cased as the compiler
    stores it. *)
Definition ci (lo : N) : regex := LitI (lo :: sre_fixes lo).

Fixpoint seq_of (rs : list regex) : regex :=
  match rs with
  | [] => Empty
  | [r] => r
  | r :: rest => Seq r (seq_of rest)
  end.

(** A run of letters under [(?i)]; the argument is the lower-cased text. *)
Definition word_i (s : string) : regex := seq_of (map ci (py s)).

End Re.

(* ===================================================================== *)
(** * Field extractor *)
(* ===================================================================== *)

Module Extractor.
Import Re.

Definition digit : regex := In_ false [CRange 48 57].
Definition non_digit : regex := In_ true [CRange 48 57].
Definition space : regex := In_ false [CSpace].

(** [[0-9]{1,3}(?:[.,\s][0-9]{3})*] *)
Definition number : regex :=
  Seq (Repeat 1 (Some 3%nat) digit)
      (Repeat 0 None
         (Seq (In_ false [CLit 46; CLit 44; CSpace]) (Repeat 3 (Some 3%nat) digit))).

(** [(?i)\b(plot|land)\s*area\b[^0-9]{0,80}(number)] *)
Definition land_pattern_en : regex :=
  seq_of [ Boundary; Group 1 (Alt (word_i "plot") (word_i "land"));
           Repeat 0 None space; word_i "area"; Boundary;
           Repeat 0 (Some 80%nat) non_digit; Group 2 number ].

(** [(?i)\blot\s*size\b[^0-9]{0,80}(number)] *)
Definition land_pattern_lot : regex :=
  seq_of [ Boundary; word_i "lot"; Repeat 0 None space; word_i "size"; Boundary;
           Repeat 0 (Some 80%nat) non_digit; Group 1 number ].

(** [(?i)(Εμβαδόν\s*οικοπέδου|Εμβαδόν|οικόπεδο|οικοπέδου)[^0-9]{0,120}(number)];
    the capital [Ε] is stored as its lower case [ε]. *)
Definition land_pattern_gr : regex :=
  seq_of [ Group 1
             (Alt (seq_of [word_i "εμβαδόν"; Repeat 0 None space; word_i "οικοπέδου"])
             (Alt (word_i "εμβαδόν")
             (Alt (word_i "οικόπεδο") (word_i "οικοπέδου"))));
           Repeat 0 (Some 120%nat) non_digit; Group 2 number ].

Definition land_patterns : list regex :=
  [land_pattern_en; land_pattern_lot; land_pattern_gr].

(** [(?i)(€|eur)\s*(number)]; the euro sign has no case. *)
Definition price_pattern : regex :=
  seq_of [ Group 1 (Alt (Lit 8364) (word_i "eur")); Repeat 0 None space;
           Group 2 number ].

(** [(?i)\b(number)\s*m²\b]; the superscript has no case. *)
Definition area_pattern : regex :=
  seq_of [ Boundary; Group 1 number; Repeat 0 None space; ci 109; Lit 178;
           Boundary ].

Section WithUnicode.
Context (U : UnicodeData).

Definition is_decimal (c : N) : bool :=
  match uni_decimal U c with Some _ => true | None => false end.

(** [s.strip()] *)
Fixpoint lstrip (s : list N) : list N :=
  match s with
  | c :: tl => if uni_isspace c then lstrip tl else s
  | [] => []
  end.
Definition strip (s : list N) : list N := reverse (lstrip (reverse (lstrip s))).

(** [s.isdigit()], for the strings [clean_int] tests: those left by the
    substitution, whose characters are all decimal digits. *)
Definition isdigit (s : list N) : bool :=
  match s with [] => false | _ => forallb is_decimal s end.

(** [int(s)] on a string of decimal digits (arbitrary precision). *)
Definition int_of_digits (s : list N) : Z :=
  fold_left (fun acc c => (10 * acc + default 0 (uni_decimal U c))%Z) s 0%Z.

Definition clean_int (s : option (list N)) : option Z :=
  match s with
  | None | Some [] => None
  | Some s =>
    let s := strip (replace_char 160 [32] s) in
    let s := filter (fun c => is_decimal c = true) s in
    if isdigit s then Some (int_of_digits s) else None
  end.

(** Truth value of an [Optional[int]]. *)
Definition truthy (x : option Z) : bool :=
  match x with Some n => negb (n =? 0)%Z | None => false end.

(** The [for pat in land_patterns] loop, with its [break]. *)
Fixpoint land_loop (pats : list regex) (text : list N) (land_m2 : option Z)
    : option Z :=
  match pats with
  | [] => land_m2
  | pat :: rest =>
    match search U pat text with
    | Some mt =>
      let land_m2 := clean_int (default None (last (groups mt))) in
      if truthy land_m2 then land_m2 else land_loop rest text land_m2
    | None => land_loop rest text land_m2
    end
  end.

Definition extract_fields (text : list N) : gmap string (option Z) :=
  let land_m2 := land_loop land_patterns text None in
  let price_m := search U price_pattern text in
  let price_eur :=
    match price_m with Some mt => clean_int (group mt 2) | None => None end in
  let area_m := search U area_pattern text in
  let area_m2 :=
    match area_m with Some mt => clean_int (group mt 1) | None => None end in
  <["land_m2" := land_m2]> (<["price_eur" := price_eur]> (<["area_m2" := area_m2]> ∅)).

End WithUnicode.

(** [fields.get(key)]: [None] for a missing key as for a [None] value. *)
Definition dict_get (fields : gmap string (option Z)) (key : string) : option Z :=
  default None (fields !! key).

End Extractor.

Export Extractor.

(* ===================================================================== *)
(** * Challenge detector and notifier *)
(* ===================================================================== *)

Definition challenge_markers : list (list N) :=
  [ py "captcha"; py "cf-challenge"; py "cloudflare";
    py "checking your browser"; py "/cdn-cgi/"; py "turnstile" ].

(** [html or ""] guards against [None]. *)
Definition looks_like_challenge (U : UnicodeData) (html : option (list N)) : bool :=
  let h := str_lower U (default [] html) in
  existsb (fun s => contains s h) challenge_markers.

Definition format_message (url : list N) (fields : gmap string (option Z)) : list N :=
  let land := dict_get fields "land_m2" in
  let price := dict_get fields "price_eur" in
  let area := dict_get fields "area_m2" in
  let parts := [py "Nouvelle annonce qualifiee"] in
  let parts :=
    match land with
    | Some n => parts ++ [py "Terrain: " ++ str_of_int n ++ py " m²"]
    | None => parts
    end in
  let parts :=
    match price with
    | Some n => parts ++ [py "Prix: " ++ str_of_int n ++ py " EUR"]
    | None => parts
    end in
  let parts :=
    match area with
    | Some n => parts ++ [py "Surface: " ++ str_of_int n ++ py " m²"]
    | None => parts
    end in
  let parts := parts ++ [url] in
  join [10] parts.

(* ===================================================================== *)
(** * The request handler and its effects *)
(* ===================================================================== *)

Module App.

(** The configuration read from the environment at start-up (the fields
    the handler path reads). *)
Record Config := {
  TELEGRAM_BOT_TOKEN : list N;
  TELEGRAM_CHAT_ID : list N;
  MIN_LAND_M2 : Z;
  DEDUP_TTL_SECONDS : Z;
  MAX_TEXT_CHARS : Z;
  DISABLE_PREVIEW : bool
}.

(** The values when no variable is set. *)
Definition default_config : Config := {|
  TELEGRAM_BOT_TOKEN := [];
  TELEGRAM_CHAT_ID := [];
  MIN_LAND_M2 := 0;
  DEDUP_TTL_SECONDS := 86400;
  MAX_TEXT_CHARS := 250000;
  DISABLE_PREVIEW := false
|}.

Record Payload := {
  url : list N;
  source : option (list N);
  email_id : option (list N)
}.

(** Exceptions, with the text [str(e)] gives. *)
Inductive exn :=
| PwTimeoutError (msg : list N)
| RuntimeError (msg : list N)
| OtherException (msg : list N)
| HTTPException (status_code : Z) (detail : list N).

Definition str_of_exn (e : exn) : list N :=
  match e with
  | PwTimeoutError msg | RuntimeError msg | OtherException msg => msg
  | HTTPException _ detail => detail
  end.

(** JSON values of the response bodies. *)
Inductive json :=
| JStr (s : list N)
| JInt (n : Z)
| JDict (d : gmap string (option Z)).

Definition body := list (string * json).

Fixpoint body_get (key : string) (b : body) : option json :=
  match b with
  | [] => None
  | (k, v) :: rest => if String.eqb k key then Some v else body_get key rest
  end.

(** What the collaborators answer during one request: the successive
    readings of [time.time()], the page Playwright renders (markup and
    body text) or the exception it raises, and the reply to the POST. *)
Inductive page_result :=
| Rendered (html text : list N)
| RenderRaised (e : exn).

Inductive post_result :=
| Response (status_code : Z) (text : list N)
| PostRaised (e : exn).

Record PostData := {
  chat_id : list N;
  text : list N;
  disable_web_page_preview : bool
}.

Record Env := {
  clock : nat -> Q;
  browser : list N -> page_result;
  http_post : list N -> PostData -> post_result
}.

(** The pipeline stages a request went through, oldest first. *)
Inductive call :=
| CallFetch (url : list N)
| CallChallenge (html : list N)
| CallExtract (text : list N)
| CallSend (msg : list N).

Record St := {
  _seen : gmap (list N) Q;
  reads : nat;
  calls : list call
}.

Inductive result (A : Type) :=
| Ok (a : A)
| Raised (e : exn).
Arguments Ok {A} a.
Arguments Raised {A} e.

Definition M (A : Type) : Type := St -> St * result A.

Definition ret {A} (a : A) : M A := fun s => (s, Ok a).
Definition raise {A} (e : exn) : M A := fun s => (s, Raised e).
Definition bind {A B} (c : M A) (f : A -> M B) : M B :=
  fun s => match c s with
           | (s', Ok a) => f a s'
           | (s', Raised e) => (s', Raised e)
           end.
(** [try: c except Exception as e: h(e)] *)
Definition try_except {A} (c : M A) (h : exn -> M A) : M A :=
  fun s => match c s with
           | (s', Ok a) => (s', Ok a)
           | (s', Raised e) => h e s'
           end.

#[export] Instance M_ret : MRet M := @ret.
#[export] Instance M_bind : MBind M := fun A B f c => bind c f.

Definition get_seen : M (gmap (list N) Q) := fun s => (s, Ok (_seen s)).
Definition set_seen (seen : gmap (list N) Q) : M unit :=
  fun s => ({| _seen := seen; reads := reads s; calls := calls s |}, Ok tt).
Definition log (c : call) : M unit :=
  fun s => ({| _seen := _seen s; reads := reads s; calls := calls s ++ [c] |}, Ok tt).

Section Handler.
Context (U : UnicodeData).
(** [hashlib.sha256(bytes).hexdigest()] *)
Context (sha256_hexdigest : list N -> list N).
Context (cfg : Config).
Context (env : Env).

Definition now_ts : M Q :=
  fun s => ({| _seen := _seen s; reads := S (reads s); calls := calls s |},
            Ok (clock env (reads s))).

Definition dedup_key (url : list N) : list N :=
  sha256_hexdigest (utf8_encode url).

(** [(t - v) > DEDUP_TTL_SECONDS] *)
Definition older_than_ttl (t v : Q) : bool :=
  if Qlt_le_dec (inject_Z (DEDUP_TTL_SECONDS cfg)) (t - v) then true else false.

Definition gc_seen : M unit :=
  t ← now_ts;
  seen ← get_seen;
  let expired :=
    map fst (List.filter (fun kv => older_than_ttl t (snd kv)) (map_to_list seen)) in
  set_seen (fold_left (fun d k => delete k d) expired seen).

Definition telegram_send (text : list N) : M unit :=
  if bool_decide (TELEGRAM_BOT_TOKEN cfg = []) || bool_decide (TELEGRAM_CHAT_ID cfg = [])
  then raise (RuntimeError (py "Missing TELEGRAM_BOT_TOKEN / TELEGRAM_CHAT_ID"))
  else
    let url := py "https://api.telegram.org/bot" ++ TELEGRAM_BOT_TOKEN cfg
               ++ py "/sendMessage" in
    let data := {| chat_id := TELEGRAM_CHAT_ID cfg; text := text;
                   disable_web_page_preview := DISABLE_PREVIEW cfg |} in
    match http_post env url data with
    | PostRaised e => raise e
    | Response status_code body_text =>
      if negb (status_code =? 200)%Z
      then raise (RuntimeError (py "Telegram error: " ++ str_of_int status_code
                                ++ [32] ++ body_text))
      else ret tt
    end.

(** The browser session is the collaborator; the clamp of the body text
    is the repository's. *)
Definition fetch_page_text (url : list N) : M (list N * list N) :=
  match browser env url with
  | RenderRaised e => raise e
  | Rendered html text =>
    let text :=
      if (MAX_TEXT_CHARS cfg <? Z.of_nat (length text))%Z
      then take (Z.to_nat (MAX_TEXT_CHARS cfg)) text
      else text in
    ret (html, text)
  end.

Definition webhook (payload : Payload) : M body :=
  gc_seen;;
  let url := url payload in
  let key := dedup_key url in
  seen ← get_seen;
  if bool_decide (is_Some (seen !! key))
  then ret [("status", JStr (py "dedup_skipped"))]
  else
    t ← now_ts;
    seen ← get_seen;
    set_seen (<[key := t]> seen);;
    page ← try_except (log (CallFetch url);; fetch_page_text url)
             (fun e => match e with
                       | PwTimeoutError _ =>
                         raise (HTTPException 504 (py "Timeout loading page"))
                       | _ =>
                         raise (HTTPException 502 (py "Browser error: " ++ str_of_exn e))
                       end);
    let html := fst page in
    let text := snd page in
    log (CallChallenge html);;
    if looks_like_challenge U (Some html)
    then raise (HTTPException 403 (py "Blocked by challenge/CAPTCHA"))
    else
      log (CallExtract text);;
      let fields := extract_fields U text in
      match dict_get fields "land_m2" with
      | None =>
        ret [("status", JStr (py "no_land_field")); ("url", JStr url);
             ("fields", JDict fields)]
      | Some land_m2 =>
        if negb (MIN_LAND_M2 cfg =? 0)%Z && (land_m2 <? MIN_LAND_M2 cfg)%Z
        then ret [("status", JStr (py "filtered_out")); ("url", JStr url);
                  ("land_m2", JInt land_m2)]
        else
          let msg := format_message url fields in
          try_except (log (CallSend msg);; telegram_send msg)
            (fun e => raise (HTTPException 502 (py "Telegram send failed: "
                                                ++ str_of_exn e)));;
          ret [("status", JStr (py "posted")); ("url", JStr url);
               ("land_m2", JInt land_m2); ("fields", JDict fields)]
      end.

(** One request against the store [seen]: the store afterwards, what the
    handler returned or raised, and the stages it went through. *)
Definition serve (seen : gmap (list N) Q) (payload : Payload)
    : gmap (list N) Q * result body * list call :=
  let '(s, r) := webhook payload {| _seen := seen; reads := 0; calls := [] |} in
  (_seen s, r, calls s).

End Handler.

(** The HTTP status the framework answers with. *)
Definition http_status (r : result body) : Z :=
  match r with
  | Ok _ => 200
  | Raised (HTTPException code _) => code
  | Raised _ => 500
  end.

End App.
Export App.

(* ===================================================================== *)
(** * The smoke test's detector ([smoke.py]) *)
(* ===================================================================== *)

Module Smoke.

Definition challenge_markers : list (list N) :=
  [ py "captcha"; py "cf-challenge"; py "cloudflare"; py "checking your browser" ].

Definition looks_like_challenge (U : UnicodeData) (html : option (list N)) : bool :=
  let h := str_lower U (default [] html) in
  existsb (fun x => contains x h) challenge_markers.

(** What the script prints first for a page it could load. *)
Definition verdict (U : UnicodeData) (html : list N) : list N :=
  if looks_like_challenge U (Some html) then py "BLOCKED" else py "OK".

End Smoke.

(* ===================================================================== *)
(** * Specification-side definitions *)
(* ===================================================================== *)

(** The line of one field, as the specification words it: present, or
    omitted entirely. *)
Definition field_line (label unit_ : list N) (v : option Z) : list (list N) :=
  match v with
  | Some n => [label ++ str_of_int n ++ unit_]
  | None => []
  end.

#[export] Instance Qle_decision (a b : Q) : Decision (a <= b)%Q :=
  match Qlt_le_dec b a with
  | left H => right (Qlt_not_le _ _ H)
  | right H => left H
  end.

(** The sweep as the specification words it: the entries whose age at
    the reading [t] does not exceed the TTL are kept, all others go. *)
Definition sweep (cfg : Config) (t : Q) (seen : gmap (list N) Q) : gmap (list N) Q :=
  filter (fun kv => (t - snd kv <= inject_Z (DEDUP_TTL_SECONDS cfg))%Q) seen.

(** The store after a sequence of requests, each with its own
    collaborators. *)
Fixpoint serve_all (U : UnicodeData) (sha256_hexdigest : list N -> list N)
    (cfg : Config) (requests : list (Env * Payload)) (seen : gmap (list N) Q)
    : gmap (list N) Q :=
  match requests with
  | [] => seen
  | (env, payload) :: rest =>
    serve_all U sha256_hexdigest cfg rest
      (fst (fst (serve U sha256_hexdigest cfg env seen payload)))
  end.

(** The body text after the length cap. *)
Definition clamped (cfg : Config) (text : list N) : list N :=
  if (MAX_TEXT_CHARS cfg <? Z.of_nat (length text))%Z
  then take (Z.to_nat (MAX_TEXT_CHARS cfg)) text
  else text.

(** What [telegram_send] does with a message: it reads no state. *)
Definition delivery (cfg : Config) (env : Env) (msg : list N) : result unit :=
  snd (telegram_send cfg env msg {| _seen := ∅; reads := 0; calls := [] |}).

(** The values the land patterns yield on a text, in the order of the
    patterns: one entry for each pattern that matches. *)
Definition land_candidates (U : UnicodeData) (pats : list Re.regex) (text : list N)
    : list (option Z) :=
  omap (fun pat =>
          match Re.search U pat text with
          | Some mt => Some (clean_int U (default None (last (Re.groups mt))))
          | None => None
          end) pats.

(** [[.,\s]]: what may stand between two groups of digits. *)
Definition separator (c : N) : bool := (c =? 46) || (c =? 44) || uni_isspace c.

(** A separator and exactly three digits. *)
Definition group_ok (g : N * N * N * N) : Prop :=
  let '(s, a, b, c) := g in
  separator s = true /\ is_ascii_digit a = true /\
  is_ascii_digit b = true /\ is_ascii_digit c = true.

(** The groups as they stand in the text, and their digits alone. *)
Definition thousands (gs : list (N * N * N * N)) : list N :=
  flat_map (fun '(s, a, b, c) => [s; a; b; c]) gs.

Definition group_digits (gs : list (N * N * N * N)) : list N :=
  flat_map (fun '(_, a, b, c) => [a; b; c]) gs.

(** Does the text go on with one more group? *)
Definition starts_group (rest : list N) : bool :=
  match rest with
  | s :: a :: b :: c :: _ =>
    separator s && is_ascii_digit a && is_ascii_digit b && is_ascii_digit c
  | _ => false
  end.

(** The number a string of ASCII digits denotes. *)
Definition decimal_value (ds : list N) : Z :=
  fold_left (fun acc d => (10 * acc + (Z.of_N d - 48))%Z) ds 0%Z.

(** A class item that holds ASCII digits only. *)
Definition digits_only (i : Re.cset_item) : bool :=
  match i with
  | Re.CRange lo hi => (48 <=? lo) && (hi <=? 57)
  | _ => false
  end.

(** A pattern every match of which consumes an ASCII digit. *)
Fixpoint demands_digit (r : Re.regex) : bool :=
  match r with
  | Re.In_ negate items => negb negate && forallb digits_only items
  | Re.Seq r1 r2 => demands_digit r1 || demands_digit r2
  | Re.Alt r1 r2 => demands_digit r1 && demands_digit r2
  | Re.Group _ r1 => demands_digit r1
  | Re.Repeat lo _ r1 => (1 <=? lo)%nat && demands_digit r1
  | _ => false
  end.

(** No ASCII digit is left in the subject. *)
Definition digit_free (s : Re.mstate) : Prop :=
  Forall (fun c => is_ascii_digit (Re.u_code c) = false) (Re.m_rest s).

(** The response bodies of the four non-error outcomes. *)
Definition dedup_skipped : body := [("status", JStr (py "dedup_skipped"))].

Definition no_land_field (url : list N) (fields : gmap string (option Z)) : body :=
  [("status", JStr (py "no_land_field")); ("url", JStr url); ("fields", JDict fields)].

Definition filtered_out (url : list N) (land_m2 : Z) : body :=
  [("status", JStr (py "filtered_out")); ("url", JStr url); ("land_m2", JInt land_m2)].

Definition posted (url : list N) (land_m2 : Z) (fields : gmap string (option Z)) : body :=
  [("status", JStr (py "posted")); ("url", JStr url); ("land_m2", JInt land_m2);
   ("fields", JDict fields)].

(** The outcome taxonomy: what the handler answers, by whether the
    fingerprint was in the store at the check and by what the
    collaborators did. *)
Inductive outcome_case (U : UnicodeData) (cfg : Config) (env : Env) (u : list N)
    : bool -> result body -> Prop :=
| Deduplicated :
    outcome_case U cfg env u true (Ok dedup_skipped)
| RenderTimeout msg :
    browser env u = RenderRaised (PwTimeoutError msg) ->
    outcome_case U cfg env u false
      (Raised (HTTPException 504 (py "Timeout loading page")))
| RenderFault e :
    browser env u = RenderRaised e ->
    (forall msg, e <> PwTimeoutError msg) ->
    outcome_case U cfg env u false
      (Raised (HTTPException 502 (py "Browser error: " ++ str_of_exn e)))
| Challenge html text :
    browser env u = Rendered html text ->
    looks_like_challenge U (Some html) = true ->
    outcome_case U cfg env u false
      (Raised (HTTPException 403 (py "Blocked by challenge/CAPTCHA")))
| NoLandField html text :
    browser env u = Rendered html text ->
    looks_like_challenge U (Some html) = false ->
    dict_get (extract_fields U (clamped cfg text)) "land_m2" = None ->
    outcome_case U cfg env u false
      (Ok (no_land_field u (extract_fields U (clamped cfg text))))
| FilteredOut html text land :
    browser env u = Rendered html text ->
    looks_like_challenge U (Some html) = false ->
    dict_get (extract_fields U (clamped cfg text)) "land_m2" = Some land ->
    MIN_LAND_M2 cfg <> 0%Z -> (land < MIN_LAND_M2 cfg)%Z ->
    outcome_case U cfg env u false (Ok (filtered_out u land))
| DeliveryFailed html text land e :
    browser env u = Rendered html text ->
    looks_like_challenge U (Some html) = false ->
    dict_get (extract_fields U (clamped cfg text)) "land_m2" = Some land ->
    (MIN_LAND_M2 cfg = 0%Z \/ (MIN_LAND_M2 cfg <= land)%Z) ->
    delivery cfg env (format_message u (extract_fields U (clamped cfg text)))
      = Raised e ->
    outcome_case U cfg env u false
      (Raised (HTTPException 502 (py "Telegram send failed: " ++ str_of_exn e)))
| Posted html text land :
    browser env u = Rendered html text ->
    looks_like_challenge U (Some html) = false ->
    dict_get (extract_fields U (clamped cfg text)) "land_m2" = Some land ->
    (MIN_LAND_M2 cfg = 0%Z \/ (MIN_LAND_M2 cfg <= land)%Z) ->
    delivery cfg env (format_message u (extract_fields U (clamped cfg text)))
      = Ok tt ->
    outcome_case U cfg env u false
      (Ok (posted u land (extract_fields U (clamped cfg text)))).

(** Concrete collaborators for the scenarios the theorems are exercised
    on. *)
Module Scenario.

(** Any function will do for the digest; the scenarios use the bytes
    themselves. *)
Definition digest (bytes : list N) : list N := bytes.

Definition listing : Payload :=
  {| url := py "https://example.org/listing/1"; source := None; email_id := None |}.

Definition other_listing : Payload :=
  {| url := py "https://example.org/listing/2"; source := None; email_id := None |}.

(** Credentials set, threshold as given. *)
Definition config (min_land : Z) : Config := {|
  TELEGRAM_BOT_TOKEN := py "123:abc";
  TELEGRAM_CHAT_ID := py "-1001";
  MIN_LAND_M2 := min_land;
  DEDUP_TTL_SECONDS := 86400;
  MAX_TEXT_CHARS := 250000;
  DISABLE_PREVIEW := false
|}.

(** A request whose clock reads [t] twice, whose page renders with the
    given body text, and whose message is accepted. *)
Definition env_at (t : Q) (text : list N) : Env := {|
  clock := fun _ => t;
  browser := fun _ => Rendered (py "<html><body>listing</body></html>") text;
  http_post := fun _ _ => Response 200 (py "{}")
|}.

(** A request whose render times out. *)
Definition env_timeout (t : Q) : Env := {|
  clock := fun _ => t;
  browser := fun _ => RenderRaised (PwTimeoutError (py "Timeout 45000ms exceeded."));
  http_post := fun _ _ => Response 200 (py "{}")
|}.

End Scenario.

(* ===================================================================== *)
(** * Properties: strings *)
(* ===================================================================== *)

Lemma startswith_spec (needle hay : list N) :
  startswith needle hay = true <-> exists post, hay = needle ++ post.
Proof.
  revert hay. induction needle as [|a n IH]; intros hay; simpl.
  - split; [intros _; by exists hay | done].
  - destruct hay as [|b h].
    + split; [done | intros [post Hp]; discriminate].
    + rewrite andb_true_iff, N.eqb_eq, IH. split.
      * intros [-> [post ->]]. by exists post.
      * intros [post Hp]. injection Hp as -> ->. eauto.
Qed.

Lemma contains_spec (needle hay : list N) :
  contains needle hay = true <-> exists pre post, hay = pre ++ needle ++ post.
Proof.
  induction hay as [|b h IH].
  - simpl. rewrite orb_false_r, startswith_spec. split.
    + intros [post Hp]. by exists [], post.
    + intros [pre [post Hp]]. destruct pre; [by exists post | discriminate].
  - cbn [contains]. rewrite orb_true_iff, startswith_spec, IH. split.
    + intros [[post Hp] | [pre [post Hp]]].
      * by exists [], post.
      * exists (b :: pre), post. by rewrite Hp.
    + intros [pre [post Hp]]. destruct pre as [|c pre].
      * left. by exists post.
      * right. injection Hp as -> ->. eauto.
Qed.

Lemma contains_join (sep x : list N) (parts : list (list N)) :
  x ∈ parts -> contains x (join sep parts) = true.
Proof.
  intros Hin. apply contains_spec.
  induction parts as [|p rest IH]; [by apply elem_of_nil in Hin |].
  destruct rest as [|q rest].
  - apply list_elem_of_singleton in Hin as ->. exists [], []. simpl.
    by rewrite app_nil_r.
  - apply elem_of_cons in Hin as [-> | Hin].
    + exists [], (sep ++ join sep (q :: rest)). done.
    + destruct (IH Hin) as [pre [post Hj]].
      exists (p ++ sep ++ pre), post.
      change (join sep (p :: q :: rest)) with (p ++ sep ++ join sep (q :: rest)).
      rewrite Hj. by rewrite <- !app_assoc.
Qed.

Lemma join_last (sep x : list N) (parts : list (list N)) :
  exists pre, join sep (parts ++ [x]) = pre ++ x.
Proof.
  induction parts as [|p rest [pre IH]].
  - by exists [].
  - exists (p ++ sep ++ pre).
    change (join sep ((p :: rest) ++ [x])) with (join sep (p :: (rest ++ [x]))).
    destruct (rest ++ [x]) as [|q l] eqn:E.
    + by destruct rest.
    + change (join sep (p :: q :: l)) with (p ++ sep ++ join sep (q :: l)).
      rewrite IH. by rewrite <- !app_assoc.
Qed.

(* ===================================================================== *)
(** * Properties: challenge detector *)
(* ===================================================================== *)

(** C7. [looks_like_challenge] answers true exactly when the lower-cased
    markup (the empty string for [None]) contains one of the six markers
    as a substring. *)
Theorem looks_like_challenge_iff (U : UnicodeData) (html : option (list N)) :
  looks_like_challenge U html = true <->
  exists marker pre post,
    marker ∈ challenge_markers /\
    str_lower U (default [] html) = pre ++ marker ++ post.
Proof.
  unfold looks_like_challenge. rewrite existsb_exists. split.
  - intros [mk [Hin Hc]]. apply contains_spec in Hc as [pre [post Hc]].
    exists mk, pre, post. split; [by apply list_elem_of_In | done].
  - intros [mk [pre [post [Hin Hc]]]]. exists mk.
    split; [by apply list_elem_of_In |]. apply contains_spec. eauto.
Qed.

(** A reCAPTCHA widget in upper or mixed case is a challenge; a plain
    listing page is not. *)
Lemma looks_like_challenge_examples (U : UnicodeData) :
  conforms U ->
  looks_like_challenge U (Some (py "<div class='G-ReCAPTCHA'></div>")) = true /\
  looks_like_challenge U (Some (py "<html><body>Plot area: 500</body></html>")) = false /\
  looks_like_challenge U None = false.
Proof.
  intros HU. unfold looks_like_challenge.
  rewrite !(conf_lower U HU) by reflexivity. by vm_compute.
Qed.

(* ===================================================================== *)
(** * Properties: notifier *)
(* ===================================================================== *)

(** C9. The message is the header line, then the lines of the present
    fields in the order land, price, living area (an absent field has no
    line), then the URL, joined by newlines; the URL ends the message;
    and with a land area of 500 the message contains "Terrain: 500 m²"
    and the URL. *)
Theorem format_message_lines (url : list N) (fields : gmap string (option Z)) :
  format_message url fields =
    join [10]
      ([py "Nouvelle annonce qualifiee"]
       ++ field_line (py "Terrain: ") (py " m²") (dict_get fields "land_m2")
       ++ field_line (py "Prix: ") (py " EUR") (dict_get fields "price_eur")
       ++ field_line (py "Surface: ") (py " m²") (dict_get fields "area_m2")
       ++ [url]) /\
  (exists before, format_message url fields = before ++ url) /\
  (let msg := format_message url (<["land_m2" := Some 500%Z]> fields) in
   contains (py "Terrain: 500 m²") msg = true /\ contains url msg = true).
Proof.
  assert (forall f,
    format_message url f =
    join [10]
      (([py "Nouvelle annonce qualifiee"]
       ++ field_line (py "Terrain: ") (py " m²") (dict_get f "land_m2")
       ++ field_line (py "Prix: ") (py " EUR") (dict_get f "price_eur")
       ++ field_line (py "Surface: ") (py " m²") (dict_get f "area_m2"))
       ++ [url])) as Hshape.
  { intros f. unfold format_message, field_line.
    destruct (dict_get f "land_m2"), (dict_get f "price_eur"),
      (dict_get f "area_m2"); reflexivity. }
  split; [| split].
  - rewrite Hshape. by rewrite <- !app_assoc.
  - rewrite Hshape. apply join_last.
  - cbv zeta. rewrite Hshape. unfold dict_get at 1. rewrite lookup_insert_eq.
    split; apply contains_join.
    + apply elem_of_app. left. apply elem_of_cons. right.
      apply elem_of_app. left. apply list_elem_of_singleton. reflexivity.
    + apply elem_of_app. right. by apply list_elem_of_singleton.
Qed.

(* ===================================================================== *)
(** * Properties: dedup store *)
(* ===================================================================== *)

Section Store.
Context (cfg : Config) (env : Env).

Lemma older_than_ttl_true (t v : Q) :
  older_than_ttl cfg t v = true <-> (inject_Z (DEDUP_TTL_SECONDS cfg) < t - v)%Q.
Proof.
  unfold older_than_ttl. destruct (Qlt_le_dec _ _) as [H | H].
  - tauto.
  - split; [discriminate | intros H'; lra].
Qed.

Lemma older_than_ttl_false (t v : Q) :
  older_than_ttl cfg t v = false <-> (t - v <= inject_Z (DEDUP_TTL_SECONDS cfg))%Q.
Proof.
  unfold older_than_ttl. destruct (Qlt_le_dec _ _) as [H | H].
  - split; [discriminate | intros H'; lra].
  - tauto.
Qed.

Lemma lookup_fold_delete (ks : list (list N)) (d : gmap (list N) Q) (k : list N) :
  fold_left (fun d k => delete k d) ks d !! k = if decide (k ∈ ks) then None else d !! k.
Proof.
  revert d. induction ks as [|k' ks IH]; intros d; cbn [fold_left].
  - case_decide as Hin; [by apply elem_of_nil in Hin | done].
  - rewrite IH. destruct (decide (k ∈ ks)) as [Hin | Hnin].
    + rewrite decide_True; [done | by apply elem_of_cons; right].
    + destruct (decide (k = k')) as [-> | Hne].
      * rewrite lookup_delete_eq, decide_True; [done | by apply elem_of_cons; left].
      * rewrite lookup_delete_ne, decide_False; [done | | done].
        intros [? | ?]%elem_of_cons; done.
Qed.

Lemma elem_of_expired (f : list N * Q -> bool) (d : gmap (list N) Q) (k : list N) :
  k ∈ map fst (List.filter f (map_to_list d)) <->
  exists v, d !! k = Some v /\ f (k, v) = true.
Proof.
  rewrite list_elem_of_In, in_map_iff. split.
  - intros [[k' v] [Hk Hin]]. simpl in Hk. subst k'.
    apply filter_In in Hin as [Hin Hf]. exists v. split; [| done].
    apply elem_of_map_to_list. by apply list_elem_of_In.
  - intros [v [Hl Hf]]. exists (k, v). split; [done |].
    apply filter_In. split; [| done].
    apply list_elem_of_In. by apply elem_of_map_to_list.
Qed.

(** The sweep, entry by entry: an entry survives exactly when its age at
    the reading [t] is at most the TTL. *)
Lemma gc_seen_run (s : St) :
  exists swept,
    gc_seen cfg env s =
      ({| _seen := swept; reads := S (reads s); calls := calls s |}, Ok tt) /\
    forall k,
      swept !! k =
        match _seen s !! k with
        | Some v => if older_than_ttl cfg (clock env (reads s)) v then None else Some v
        | None => None
        end.
Proof.
  unfold gc_seen, mbind, M_bind, bind, now_ts, get_seen, set_seen. cbn.
  eexists. split; [reflexivity |]. intros k.
  rewrite lookup_fold_delete. destruct (decide _) as [Hin | Hnin].
  - apply elem_of_expired in Hin as [v [Hl Hf]]. simpl in Hf. by rewrite Hl, Hf.
  - destruct (_seen s !! k) as [v |] eqn:Hl; [| done].
    destruct (older_than_ttl _ _ v) eqn:Hf; [| done].
    exfalso. apply Hnin. apply elem_of_expired. eauto.
Qed.

End Store.

(* ===================================================================== *)
(** * Properties: the handler, path by path *)
(* ===================================================================== *)

Section Paths.
Context (U : UnicodeData) (sha256_hexdigest : list N -> list N).
Context (cfg : Config) (env : Env).

Lemma gc_seen_sweep (s : St) :
  gc_seen cfg env s =
    ({| _seen := sweep cfg (clock env (reads s)) (_seen s);
        reads := S (reads s); calls := calls s |}, Ok tt).
Proof.
  destruct (gc_seen_run cfg env s) as [swept [-> Hl]].
  do 2 f_equal. f_equal. apply map_eq. intros k. rewrite Hl. unfold sweep.
  destruct (_seen s !! k) as [v |] eqn:Hk.
  - destruct (older_than_ttl _ _ v) eqn:Ho.
    + symmetry. apply map_lookup_filter_None. right. intros v' Hv'. simpl.
      rewrite Hk in Hv'. injection Hv' as <-.
      apply older_than_ttl_true in Ho. lra.
    + symmetry. apply map_lookup_filter_Some. split; [done |]. simpl.
      by apply older_than_ttl_false in Ho.
  - symmetry. apply map_lookup_filter_None. by left.
Qed.

Lemma telegram_send_delivery (msg : list N) (s : St) :
  telegram_send cfg env msg s = (s, delivery cfg env msg).
Proof.
  unfold delivery, telegram_send.
  destruct (_ || _); [done |].
  destruct (http_post env _ _) as [code txt | e]; [| done].
  by destruct (negb _).
Qed.

(** The handler as one decision tree over the swept store, the browser's
    answer, the detector, the extracted land area, the threshold and the
    delivery. *)
Lemma serve_paths (seen : gmap (list N) Q) (payload : Payload) :
  let u := url payload in
  let key := dedup_key sha256_hexdigest u in
  let swept := sweep cfg (clock env 0) seen in
  let marked := <[key := clock env 1%nat]> swept in
  serve U sha256_hexdigest cfg env seen payload =
    if bool_decide (is_Some (swept !! key))
    then (swept, Ok dedup_skipped, [])
    else
      match browser env u with
      | RenderRaised (PwTimeoutError msg) =>
        (marked, Raised (HTTPException 504 (py "Timeout loading page")),
         [CallFetch u])
      | RenderRaised e =>
        (marked, Raised (HTTPException 502 (py "Browser error: " ++ str_of_exn e)),
         [CallFetch u])
      | Rendered html text =>
        let text := clamped cfg text in
        if looks_like_challenge U (Some html)
        then (marked, Raised (HTTPException 403 (py "Blocked by challenge/CAPTCHA")),
              [CallFetch u; CallChallenge html])
        else
          let fields := extract_fields U text in
          match dict_get fields "land_m2" with
          | None =>
            (marked, Ok (no_land_field u fields),
             [CallFetch u; CallChallenge html; CallExtract text])
          | Some land_m2 =>
            if negb (MIN_LAND_M2 cfg =? 0)%Z && (land_m2 <? MIN_LAND_M2 cfg)%Z
            then (marked, Ok (filtered_out u land_m2),
                  [CallFetch u; CallChallenge html; CallExtract text])
            else
              let msg := format_message u fields in
              (marked,
               match delivery cfg env msg with
               | Ok _ => Ok (posted u land_m2 fields)
               | Raised e =>
                 Raised (HTTPException 502 (py "Telegram send failed: "
                                            ++ str_of_exn e))
               end,
               [CallFetch u; CallChallenge html; CallExtract text; CallSend msg])
          end
      end.
Proof.
  intros u key swept marked.
  unfold serve, webhook, mbind, M_bind, bind. rewrite gc_seen_sweep.
  cbn [_seen reads calls get_seen]. fold u key swept.
  destruct (bool_decide (is_Some (swept !! key))); [reflexivity |].
  cbn -[extract_fields format_message looks_like_challenge py]. fold marked.
  unfold try_except, bind, fetch_page_text.
  cbn -[extract_fields format_message looks_like_challenge py]. fold u.
  destruct (browser env u) as [html text | e].
  - cbn -[extract_fields format_message looks_like_challenge py].
    fold (clamped cfg text).
    destruct (looks_like_challenge U (Some html)); [reflexivity |].
    cbn -[extract_fields format_message looks_like_challenge py].
    destruct (dict_get _ "land_m2") as [land |]; [| reflexivity].
    destruct (negb _ && _); [reflexivity |].
    cbn -[extract_fields format_message looks_like_challenge py telegram_send].
    rewrite telegram_send_delivery.
    destruct (delivery cfg env _) as [[] | e]; reflexivity.
  - destruct e; reflexivity.
Qed.

End Paths.

(* ===================================================================== *)
(** * Properties: dedup gate *)
(* ===================================================================== *)

Section Dedup.
Context (U : UnicodeData) (sha256_hexdigest : list N -> list N) (cfg : Config).

Lemma sweep_lookup_Some (t : Q) (seen : gmap (list N) Q) (k : list N) (v : Q) :
  sweep cfg t seen !! k = Some v <->
  seen !! k = Some v /\ (t - v <= inject_Z (DEDUP_TTL_SECONDS cfg))%Q.
Proof. unfold sweep. by rewrite map_lookup_filter_Some. Qed.

(** A request never touches an entry that is still within the TTL when
    the request sweeps. *)
Lemma serve_keeps_young (env : Env) (seen : gmap (list N) Q) (payload : Payload)
    (k : list N) (v : Q) :
  seen !! k = Some v ->
  (clock env 0 - v <= inject_Z (DEDUP_TTL_SECONDS cfg))%Q ->
  fst (fst (serve U sha256_hexdigest cfg env seen payload)) !! k = Some v.
Proof.
  intros Hk Hage.
  assert (sweep cfg (clock env 0) seen !! k = Some v) as Hs
    by by apply sweep_lookup_Some.
  rewrite serve_paths. cbv zeta.
  case_bool_decide as Hseen; [done |].
  assert (dedup_key sha256_hexdigest (url payload) <> k) as Hne.
  { intros <-. apply Hseen. by exists v. }
  assert (<[dedup_key sha256_hexdigest (url payload) := clock env 1%nat]>
            (sweep cfg (clock env 0) seen) !! k = Some v) as Hm
    by by rewrite lookup_insert_ne.
  destruct (browser env (url payload)) as [html text | e].
  - destruct (looks_like_challenge U (Some html)); [done |].
    destruct (dict_get _ "land_m2"); [| done].
    by destruct (negb _ && _).
  - by destruct e.
Qed.

Lemma serve_all_keeps_young (requests : list (Env * Payload))
    (seen : gmap (list N) Q) (k : list N) (v : Q) :
  seen !! k = Some v ->
  Forall (fun r => (clock (fst r) 0 - v <= inject_Z (DEDUP_TTL_SECONDS cfg))%Q)
         requests ->
  serve_all U sha256_hexdigest cfg requests seen !! k = Some v.
Proof.
  intros Hk Hall. revert seen Hk.
  induction Hall as [| [env p] rest Hage _ IH]; intros seen Hk; [done |].
  cbn [serve_all]. apply IH. by apply serve_keeps_young.
Qed.

(** Any outcome but [dedup_skipped] leaves the URL marked with the
    second clock reading of the request. *)
Lemma serve_marks (env : Env) (seen : gmap (list N) Q) (payload : Payload) :
  snd (fst (serve U sha256_hexdigest cfg env seen payload)) <> Ok dedup_skipped ->
  fst (fst (serve U sha256_hexdigest cfg env seen payload))
    !! dedup_key sha256_hexdigest (url payload) = Some (clock env 1%nat).
Proof.
  rewrite serve_paths. cbv zeta.
  case_bool_decide as Hseen; [done |]. intros _.
  destruct (browser env (url payload)) as [html text | e].
  - destruct (looks_like_challenge U (Some html)); [apply lookup_insert_eq |].
    destruct (dict_get _ "land_m2"); [| apply lookup_insert_eq].
    destruct (negb _ && _); apply lookup_insert_eq.
  - destruct e; apply lookup_insert_eq.
Qed.

Lemma serve_seen (env : Env) (seen : gmap (list N) Q) (payload : Payload) (v : Q) :
  sweep cfg (clock env 0) seen !! dedup_key sha256_hexdigest (url payload) = Some v ->
  serve U sha256_hexdigest cfg env seen payload =
    (sweep cfg (clock env 0) seen, Ok dedup_skipped, []).
Proof.
  intros Hs. rewrite serve_paths. cbv zeta.
  rewrite bool_decide_eq_true_2; [done | by exists v].
Qed.

(** C1. A URL whose submission reached any outcome other than
    [dedup_skipped] (the mark is then written, before the fetch) and is
    submitted again while the mark is at most TTL seconds old, with any
    requests served in between, is answered [dedup_skipped], and none of
    fetch, challenge detection, extraction or notification runs. *)
Theorem resubmission_within_ttl_is_skipped
    (env1 env2 : Env) (between : list (Env * Payload))
    (seen0 : gmap (list N) Q) (first second : Payload) :
  url second = url first ->
  snd (fst (serve U sha256_hexdigest cfg env1 seen0 first)) <> Ok dedup_skipped ->
  Forall (fun r => (clock (fst r) 0 - clock env1 1%nat
                    <= inject_Z (DEDUP_TTL_SECONDS cfg))%Q) between ->
  (clock env2 0 - clock env1 1%nat <= inject_Z (DEDUP_TTL_SECONDS cfg))%Q ->
  let seen1 := fst (fst (serve U sha256_hexdigest cfg env1 seen0 first)) in
  let seen2 := serve_all U sha256_hexdigest cfg between seen1 in
  snd (fst (serve U sha256_hexdigest cfg env2 seen2 second)) = Ok dedup_skipped /\
  snd (serve U sha256_hexdigest cfg env2 seen2 second) = [].
Proof.
  intros Hurl Hout Hbetween Hage seen1 seen2.
  assert (seen2 !! dedup_key sha256_hexdigest (url second) = Some (clock env1 1%nat))
    as Hk.
  { rewrite Hurl. apply serve_all_keeps_young; [| done]. by apply serve_marks. }
  rewrite (serve_seen env2 seen2 second (clock env1 1%nat)); [done |].
  by apply sweep_lookup_Some.
Qed.

(** C10. When the check finds the fingerprint in the store (as the sweep
    left it), the handler answers [dedup_skipped] and ends with exactly
    that store: the entry keeps the timestamp it had before the request,
    and every entry of the final store is an entry of the initial one,
    with its value. *)
Theorem dedup_hit_leaves_store
    (env : Env) (seen : gmap (list N) Q) (payload : Payload) (v : Q) :
  let key := dedup_key sha256_hexdigest (url payload) in
  let at_check := _seen (fst (gc_seen cfg env {| _seen := seen; reads := 0; calls := [] |})) in
  at_check !! key = Some v ->
  serve U sha256_hexdigest cfg env seen payload = (at_check, Ok dedup_skipped, []) /\
  seen !! key = Some v /\
  (forall k w, at_check !! k = Some w -> seen !! k = Some w).
Proof.
  intros key at_check. subst at_check. rewrite gc_seen_sweep. cbn [_seen fst reads].
  intros Hs. split; [by apply (serve_seen env seen payload v) |].
  split.
  - by apply sweep_lookup_Some in Hs as [? _].
  - intros k w Hk. by apply sweep_lookup_Some in Hk as [? _].
Qed.

End Dedup.

Lemma dedup_hit_leaves_store_witness :
  let seen := {[ Scenario.digest (utf8_encode (url Scenario.listing)) := 100%Q ]} in
  let env := Scenario.env_at 200 (py "Plot area: 500") in
  serve reference Scenario.digest (Scenario.config 0) env seen Scenario.listing =
    (seen, Ok dedup_skipped, []).
Proof.
  intros seen env.
  destruct (dedup_hit_leaves_store reference Scenario.digest (Scenario.config 0)
              env seen Scenario.listing 100%Q) as [H _].
  - vm_compute. reflexivity.
  - rewrite H. vm_compute. reflexivity.
Defined.

Lemma resubmission_within_ttl_is_skipped_witness :
  let U := reference in
  let cfg := Scenario.config 0 in
  let seen1 := fst (fst (serve U Scenario.digest cfg (Scenario.env_timeout 0) ∅
                           Scenario.listing)) in
  let seen2 :=
    serve_all U Scenario.digest cfg
      [(Scenario.env_at 10 (py "Plot area: 500"), Scenario.other_listing)] seen1 in
  let again := serve U Scenario.digest cfg (Scenario.env_at 3600 (py "Plot area: 500"))
                 seen2 Scenario.listing in
  snd (fst again) = Ok dedup_skipped /\ snd again = [].
Proof.
  intros U cfg seen1 seen2 again.
  apply (resubmission_within_ttl_is_skipped U Scenario.digest cfg
           (Scenario.env_timeout 0) (Scenario.env_at 3600 (py "Plot area: 500"))
           [(Scenario.env_at 10 (py "Plot area: 500"), Scenario.other_listing)]
           ∅ Scenario.listing Scenario.listing).
  - reflexivity.
  - vm_compute. discriminate.
  - repeat constructor. vm_compute. discriminate.
  - vm_compute. discriminate.
Defined.

(* ===================================================================== *)
(** * Properties: sweep, filter gate, outcome taxonomy *)
(* ===================================================================== *)

Section Gates.
Context (U : UnicodeData) (sha256_hexdigest : list N -> list N) (cfg : Config).

Lemma serve_fresh_shape (env : Env) (seen : gmap (list N) Q) (payload : Payload) :
  sweep cfg (clock env 0) seen !! dedup_key sha256_hexdigest (url payload) = None ->
  snd (fst (serve U sha256_hexdigest cfg env seen payload)) <> Ok dedup_skipped /\
  head (snd (serve U sha256_hexdigest cfg env seen payload))
    = Some (CallFetch (url payload)).
Proof.
  intros Hs. rewrite serve_paths. cbv zeta.
  rewrite bool_decide_eq_false_2 by (rewrite Hs; by intros [? ?]).
  destruct (browser env (url payload)) as [html text | e].
  - destruct (looks_like_challenge U (Some html)); [done |].
    destruct (dict_get _ "land_m2"); [| done].
    destruct (negb _ && _); [done |].
    by destruct (delivery _ _ _).
  - by destruct e.
Qed.


(** At an age of exactly the TTL the entry is still kept. *)
Lemma entry_at_ttl_is_kept (env : Env) (seen : gmap (list N) Q) (payload : Payload)
    (v : Q) :
  seen !! dedup_key sha256_hexdigest (url payload) = Some v ->
  (clock env 0 - v == inject_Z (DEDUP_TTL_SECONDS cfg))%Q ->
  snd (fst (serve U sha256_hexdigest cfg env seen payload)) = Ok dedup_skipped.
Proof.
  intros Hk Hage. rewrite (serve_seen U sha256_hexdigest cfg env seen payload v); [done |].
  apply sweep_lookup_Some. split; [done | lra].
Qed.

(** C3. With a threshold configured, on a first sighting whose page
    renders without challenge and yields a land area [land]: below the
    threshold the answer is [filtered_out] and nothing is sent; at the
    threshold (or above) the message is sent, and the answer is [posted]
    when the delivery succeeds. *)
Theorem threshold_is_inclusive
    (env : Env) (seen : gmap (list N) Q) (payload : Payload)
    (html text : list N) (land : Z) :
  let u := url payload in
  let fields := extract_fields U (clamped cfg text) in
  let out := serve U sha256_hexdigest cfg env seen payload in
  MIN_LAND_M2 cfg <> 0%Z ->
  sweep cfg (clock env 0) seen !! dedup_key sha256_hexdigest u = None ->
  browser env u = Rendered html text ->
  looks_like_challenge U (Some html) = false ->
  dict_get fields "land_m2" = Some land ->
  ((land < MIN_LAND_M2 cfg)%Z ->
     snd (fst out) = Ok (filtered_out u land) /\
     forall msg, CallSend msg ∉ snd out) /\
  ((MIN_LAND_M2 cfg <= land)%Z ->
     last (snd out) = Some (CallSend (format_message u fields)) /\
     (delivery cfg env (format_message u fields) = Ok tt ->
      snd (fst out) = Ok (posted u land fields))).
Proof.
  intros u fields out HT Hs Hb Hc Hl. subst out u fields.
  rewrite serve_paths. cbv zeta.
  rewrite bool_decide_eq_false_2 by (rewrite Hs; by intros [? ?]).
  rewrite Hb, Hc, Hl.
  apply Z.eqb_neq in HT. rewrite HT. cbn [negb andb].
  split; intros Hcmp.
  - apply Z.ltb_lt in Hcmp. rewrite Hcmp. split; [done |].
    intros msg Hin. cbn [snd] in Hin.
    repeat (apply elem_of_cons in Hin as [Hin | Hin]; [discriminate |]).
    by apply elem_of_nil in Hin.
  - apply Z.ltb_ge in Hcmp. rewrite Hcmp. split; [done |].
    by intros ->.
Qed.


End Gates.


Lemma threshold_is_inclusive_witness :
  let cfg := Scenario.config 300 in
  let u := url Scenario.listing in
  let below := serve reference Scenario.digest cfg
                 (Scenario.env_at 0 (py "Plot area: 250")) ∅ Scenario.listing in
  let equal := serve reference Scenario.digest cfg
                 (Scenario.env_at 0 (py "Plot area: 300")) ∅ Scenario.listing in
  snd (fst below) = Ok (filtered_out u 250) /\
  snd (fst equal) = Ok (posted u 300 (extract_fields reference (py "Plot area: 300"))).
Proof.
  intros cfg u below equal. split.
  - pose proof (threshold_is_inclusive reference Scenario.digest cfg
                  (Scenario.env_at 0 (py "Plot area: 250")) ∅ Scenario.listing
                  (py "<html><body>listing</body></html>") (py "Plot area: 250")
                  250%Z) as H.
    cbv zeta in H. destruct H as [Hlow _].
    + discriminate.
    + vm_compute. reflexivity.
    + reflexivity.
    + vm_compute. reflexivity.
    + vm_compute. reflexivity.
    + apply Hlow. reflexivity.
  - pose proof (threshold_is_inclusive reference Scenario.digest cfg
                  (Scenario.env_at 0 (py "Plot area: 300")) ∅ Scenario.listing
                  (py "<html><body>listing</body></html>") (py "Plot area: 300")
                  300%Z) as H.
    cbv zeta in H. destruct H as [_ Hpass].
    + discriminate.
    + vm_compute. reflexivity.
    + reflexivity.
    + vm_compute. reflexivity.
    + vm_compute. reflexivity.
    + apply Hpass; [discriminate | vm_compute; reflexivity].
Defined.

(* ===================================================================== *)
(** * Properties: numeric normalization *)
(* ===================================================================== *)

Lemma reference_conforms : conforms reference.
Proof. by split. Qed.

Lemma isspace_tabulated (c : N) : uni_isspace c = true -> tabulated c = true.
Proof. unfold tabulated. intros ->. by rewrite orb_true_r. Qed.

Lemma isspace_not_ascii_digit (c : N) :
  uni_isspace c = true -> is_ascii_digit c = false.
Proof.
  unfold uni_isspace, is_ascii_digit. intros H.
  apply andb_false_iff. rewrite !N.leb_gt.
  repeat (rewrite orb_true_iff in H || rewrite andb_true_iff in H).
  rewrite ?N.leb_le, ?N.eqb_eq in H. lia.
Qed.

Section Normalization.
Context (U : UnicodeData) (HU : conforms U).

Lemma space_not_decimal (c : N) : uni_isspace c = true -> is_decimal U c = false.
Proof.
  intros Hs. unfold is_decimal.
  rewrite (conf_decimal U HU c (isspace_tabulated c Hs)).
  unfold ref_decimal. by rewrite (isspace_not_ascii_digit c Hs).
Qed.

Lemma filter_decimal_lstrip (s : list N) :
  filter (fun c => is_decimal U c = true) (lstrip s)
  = filter (fun c => is_decimal U c = true) s.
Proof.
  induction s as [|c s IH]; [done |]. cbn [lstrip].
  destruct (uni_isspace c) eqn:Hs; [| done].
  rewrite IH. symmetry. apply filter_cons_False.
  by rewrite (space_not_decimal c Hs).
Qed.

Lemma filter_decimal_strip (s : list N) :
  filter (fun c => is_decimal U c = true) (strip s)
  = filter (fun c => is_decimal U c = true) s.
Proof.
  unfold strip.
  rewrite filter_reverse, filter_decimal_lstrip, filter_reverse, reverse_involutive.
  apply filter_decimal_lstrip.
Qed.

Lemma filter_decimal_replace (s : list N) :
  filter (fun c => is_decimal U c = true) (replace_char 160 [32] s)
  = filter (fun c => is_decimal U c = true) s.
Proof.
  unfold replace_char. induction s as [|c s IH]; [done |].
  cbn [map concat]. rewrite filter_app, IH.
  destruct (N.eqb_spec c 160) as [-> | Hne].
  - rewrite (filter_cons_False _ 32), (filter_cons_False _ 160); [done | |];
      by rewrite space_not_decimal.
  - rewrite !filter_cons, filter_nil. by destruct (decide _).
Qed.

Lemma isdigit_filter (s : list N) :
  isdigit U (filter (fun c => is_decimal U c = true) s)
  = match filter (fun c => is_decimal U c = true) s with [] => false | _ => true end.
Proof.
  unfold isdigit.
  assert (forallb (is_decimal U) (filter (fun c => is_decimal U c = true) s) = true)
    as Hall.
  { apply forallb_forall. intros c Hin.
    apply list_elem_of_In, list_elem_of_filter in Hin. tauto. }
  rewrite Hall. by destruct (filter _ s).
Qed.

(** [clean_int] keeps the decimal digits of its argument, whatever stands
    between them, and reads them as one integer; with no digit the
    result is [None]. *)
Lemma clean_int_digits (s : list N) :
  clean_int U (Some s) =
    match filter (fun c => is_decimal U c = true) s with
    | [] => None
    | ds => Some (int_of_digits U ds)
    end.
Proof.
  unfold clean_int. destruct s as [|c s]; [done |].
  cbv zeta. rewrite isdigit_filter, filter_decimal_strip, filter_decimal_replace.
  by destruct (filter _ (c :: s)).
Qed.

End Normalization.

(* ===================================================================== *)
(** * Properties: the extractor does not depend on untabulated values *)
(* ===================================================================== *)

Section Agreement.
Context (U : UnicodeData) (HU : conforms U).

Lemma classify_tabulated (text : list N) :
  forallb tabulated text = true ->
  map (Re.classify U) text = map (Re.classify reference) text.
Proof.
  intros Ht. apply map_ext_in. intros c Hin.
  assert (tabulated c = true) as Hc by (eapply forallb_forall; eauto).
  unfold Re.classify.
  by rewrite (conf_tolower U HU c Hc), (conf_isalnum U HU c Hc).
Qed.

Lemma search_tabulated (r : Re.regex) (text : list N) :
  forallb tabulated text = true ->
  Re.search U r text = Re.search reference r text.
Proof. intros Ht. unfold Re.search. by rewrite classify_tabulated. Qed.

Lemma filter_decimal_tabulated (s : list N) :
  Forall (fun c => tabulated c = true) s ->
  filter (fun c => is_decimal U c = true) s
  = filter (fun c => is_decimal reference c = true) s.
Proof.
  induction 1 as [|c s Hc _ IH]; [done |].
  assert (is_decimal U c = is_decimal reference c) as E
    by (unfold is_decimal; by rewrite (conf_decimal U HU c Hc)).
  rewrite !filter_cons, IH.
  destruct (decide (is_decimal U c = true)), (decide (is_decimal reference c = true));
    congruence.
Qed.

Lemma int_of_digits_tabulated (s : list N) :
  Forall (fun c => tabulated c = true) s ->
  int_of_digits U s = int_of_digits reference s.
Proof.
  unfold int_of_digits. intros Hs.
  enough (forall acc,
    fold_left (fun a c => (10 * a + default 0 (uni_decimal U c))%Z) s acc
    = fold_left (fun a c => (10 * a + default 0 (uni_decimal reference c))%Z) s acc)
    by done.
  induction Hs as [|c s Hc _ IH]; intros acc; [done |].
  cbn [fold_left]. rewrite (conf_decimal U HU c Hc). apply IH.
Qed.

Lemma clean_int_tabulated (s : option (list N)) :
  from_option (Forall (fun c => tabulated c = true)) True s ->
  clean_int U s = clean_int reference s.
Proof.
  destruct s as [s |]; [| done]. cbn [from_option]. intros Hs.
  rewrite (clean_int_digits U HU), (clean_int_digits reference reference_conforms).
  rewrite (filter_decimal_tabulated s Hs).
  destruct (filter _ s) as [|d ds] eqn:E; [done |].
  f_equal. apply int_of_digits_tabulated.
  rewrite <- E. apply Forall_forall. intros c Hin.
  apply list_elem_of_filter in Hin as [_ Hin].
  by eapply Forall_forall in Hs.
Qed.

Lemma group_tabulated (mt : Re.Match) (n : nat) :
  Forall (fun c => tabulated c = true) (Re.mt_string mt) ->
  from_option (Forall (fun c => tabulated c = true)) True (Re.group mt n).
Proof.
  intros Ht. unfold Re.group. destruct (Re.span_of n _) as [[i j] |]; [| done].
  cbn [from_option]. unfold slice. by apply Forall_take, Forall_drop.
Qed.

Lemma last_groups_tabulated (mt : Re.Match) :
  Forall (fun c => tabulated c = true) (Re.mt_string mt) ->
  from_option (Forall (fun c => tabulated c = true)) True
    (default None (last (Re.groups mt))).
Proof.
  intros Ht. unfold Re.groups.
  destruct (last _) as [g |] eqn:E; [| done]. cbn [default].
  apply last_Some_elem_of, list_elem_of_fmap in E as [n [-> _]].
  by apply group_tabulated.
Qed.

Lemma search_string (V : UnicodeData) (r : Re.regex) (text : list N) (mt : Re.Match) :
  Re.search V r text = Some mt -> Re.mt_string mt = text.
Proof.
  unfold Re.search. destruct (Re.search_from _ _ _ _) as [[st s] |]; [| done].
  by intros [= <-].
Qed.

Lemma land_loop_tabulated (pats : list Re.regex) (text : list N) (acc : option Z) :
  forallb tabulated text = true ->
  land_loop U pats text acc = land_loop reference pats text acc.
Proof.
  intros Ht. revert acc. induction pats as [|pat pats IH]; intros acc; [done |].
  cbn [land_loop]. rewrite (search_tabulated pat text Ht).
  destruct (Re.search reference pat text) as [mt |] eqn:E; [| apply IH].
  cbv zeta. rewrite clean_int_tabulated.
  - destruct (truthy _); [done | apply IH].
  - apply last_groups_tabulated. rewrite (search_string _ _ _ _ E).
    apply Forall_forall. intros c Hin. eapply forallb_forall; [done |].
    by apply list_elem_of_In.
Qed.

(** On a text made of tabulated code points every conforming database
    extracts what the reference values extract. *)
Lemma extract_fields_tabulated (text : list N) :
  forallb tabulated text = true ->
  extract_fields U text = extract_fields reference text.
Proof.
  intros Ht. unfold extract_fields.
  assert (Forall (fun c => tabulated c = true) text) as HF.
  { apply Forall_forall. intros c Hin. eapply forallb_forall; [done |].
    by apply list_elem_of_In. }
  rewrite (land_loop_tabulated _ text None Ht).
  rewrite !(search_tabulated _ text Ht).
  assert (forall r n,
    match Re.search reference r text with
    | Some mt => clean_int U (Re.group mt n) | None => None end
    = match Re.search reference r text with
      | Some mt => clean_int reference (Re.group mt n) | None => None end) as Hg.
  { intros r n. destruct (Re.search reference r text) as [mt |] eqn:E; [| done].
    apply clean_int_tabulated, group_tabulated.
    by rewrite (search_string _ _ _ _ E). }
  by rewrite !Hg.
Qed.

End Agreement.

(* ===================================================================== *)
(** * Properties: the matcher on runs of characters *)
(* ===================================================================== *)

Import Re.

Lemma step_char_hit (test : uchar -> bool) (k : mstate -> option mstate)
    (s : mstate) (c : uchar) (tl : list uchar) :
  m_rest s = c :: tl -> test c = true ->
  step_char test k s = k (consume [c] s).
Proof. intros Hr Ht. unfold step_char. rewrite Hr, Ht. cbn. by rewrite Hr. Qed.

Lemma step_char_miss (test : uchar -> bool) (k : mstate -> option mstate) (s : mstate) :
  match m_rest s with [] => True | c :: _ => test c = false end ->
  step_char test k s = None.
Proof. unfold step_char. destruct (m_rest s) as [|c tl]; [done |]. by intros ->. Qed.

Lemma consume_rest (run rest : list uchar) (s : mstate) :
  m_rest s = run ++ rest -> m_rest (consume run s) = rest.
Proof.
  revert s. induction run as [|c run IH]; intros s Hr; [done |].
  cbn [consume]. apply IH. cbn. by rewrite Hr.
Qed.

Lemma consume_app (r1 r2 : list uchar) (s : mstate) :
  consume (r1 ++ r2) s = consume r2 (consume r1 s).
Proof. revert s. induction r1 as [|c r1 IH]; intros s; [done |]. apply IH. Qed.

(** A greedy repetition of a one-character test over a run of matching
    characters that ends at the upper bound or before a character that
    fails the test: the run is consumed whole when the continuation
    accepts there. *)
Lemma repeat_run (body : (mstate -> option mstate) -> mstate -> option mstate)
    (test : uchar -> bool) (lo : nat) (hi : option nat)
    (k : mstate -> option mstate) (run rest : list uchar) (x : mstate) :
  (forall k s, body k s = step_char test k s) ->
  Forall (fun c => test c = true) run ->
  forall (s : mstate) (fuel count : nat),
  m_rest s = run ++ rest ->
  match hi with Some h => (count + length run <= h)%nat | None => True end ->
  hi = Some (count + length run)%nat \/
    match rest with [] => True | c :: _ => test c = false end ->
  (lo <= count + length run)%nat ->
  (length run < fuel)%nat ->
  k (consume run s) = Some x ->
  repeat_loop body lo hi k fuel count s = Some x.
Proof.
  intros Hbody Hrun. induction Hrun as [|c run Hc _ IH];
    intros s fuel count Hrest Hhi Hstop Hlo Hfuel Hk.
  - cbn [length] in *. rewrite Nat.add_0_r in *. cbn [consume] in Hk.
    assert (repeat_loop body lo hi k 0 count s = Some x) as H0.
    { cbn. apply Nat.leb_le in Hlo. by rewrite Hlo. }
    destruct fuel as [|fuel]; [done |]. cbn [repeat_loop].
    cbn in H0. rewrite H0.
    destruct (below count hi) eqn:Hb; [| done].
    rewrite Hbody, step_char_miss; [done |].
    destruct Hstop as [-> | Hstop].
    + cbn in Hb. apply Nat.ltb_lt in Hb. lia.
    + by rewrite Hrest.
  - destruct fuel as [|fuel]; [cbn in Hfuel; lia |]. cbn [repeat_loop].
    assert (below count hi = true) as ->.
    { destruct hi as [h |]; [| done]. cbn in *. apply Nat.ltb_lt. lia. }
    rewrite Hbody, (step_char_hit test _ s c (run ++ rest)) by done.
    rewrite (IH (consume [c] s) fuel (S count)); [done | | | | | |].
    + cbn. by rewrite Hrest.
    + destruct hi as [h |]; [| done]. cbn in *. lia.
    + destruct Hstop as [-> | Hstop]; [left; f_equal; cbn; lia | by right].
    + cbn in *. lia.
    + cbn in *. lia.
    + done.
Qed.

Lemma digit_test (c : uchar) :
  is_ascii_digit (u_code c) = true -> in_set false [CRange 48 57] c = true.
Proof. unfold in_set, is_ascii_digit. cbn. intros ->. done. Qed.

Lemma digit_not_separator (c : uchar) :
  is_ascii_digit (u_code c) = true ->
  in_set false [CLit 46; CLit 44; CSpace] c = false.
Proof.
  unfold in_set, is_ascii_digit. cbn. intros H.
  apply andb_true_iff in H as [H1 H2]. apply N.leb_le in H1, H2.
  destruct (uni_isspace (u_code c)) eqn:Hs.
  { apply isspace_not_ascii_digit in Hs. unfold is_ascii_digit in Hs.
    apply andb_false_iff in Hs. rewrite !N.leb_gt in Hs. lia. }
  rewrite !orb_false_r. apply orb_false_iff. rewrite !N.eqb_neq. lia.
Qed.

(** The number sub-pattern before four digits in a row captures three of
    them: the fourth is not a separator, so no further group of three is
    taken. *)
Lemma number_three_of_four (n : nat) (k : mstate -> option mstate) (s x : mstate)
    (d1 d2 d3 d4 : uchar) (rest : list uchar) :
  m_rest s = d1 :: d2 :: d3 :: d4 :: rest ->
  Forall (fun c => is_ascii_digit (u_code c) = true) [d1; d2; d3; d4] ->
  k (close_group n (m_pos s) (consume [d1; d2; d3] s)) = Some x ->
  m (Group n Extractor.number) k s = Some x.
Proof.
  intros Hrest Hd Hk.
  apply Forall_cons in Hd as [H1 Hd]. apply Forall_cons in Hd as [H2 Hd].
  apply Forall_cons in Hd as [H3 Hd]. apply Forall_cons in Hd as [H4 _].
  cbn [m Extractor.number].
  apply (repeat_run _ (in_set false [CRange 48 57]) _ _ _ [d1; d2; d3] (d4 :: rest));
    try done.
  - repeat constructor; by apply digit_test.
  - by left.
  - cbn [length]. lia.
  - rewrite Hrest. cbn [length]. lia.
  - set (s3 := consume [d1; d2; d3] s) in *.
    assert (m_rest s3 = d4 :: rest) as Hr3 by (by apply consume_rest).
    rewrite Hr3. cbn [length repeat_loop below Nat.leb].
    rewrite step_char_miss; [exact Hk |].
    rewrite Hr3. by apply digit_not_separator.
Qed.

Lemma consume_pos (run : list uchar) (s : mstate) :
  m_pos (consume run s) = (m_pos s + length run)%nat.
Proof.
  revert s. induction run as [|c run IH]; intros s; cbn [consume length].
  - lia.
  - rewrite IH. cbn. lia.
Qed.

Lemma consume_caps (run : list uchar) (s : mstate) :
  m_caps (consume run s) = m_caps s.
Proof.
  revert s. induction run as [|c run IH]; intros s; cbn [consume]; [done |].
  by rewrite IH.
Qed.

(** The common tail of the land and price patterns, a bounded run of one
    character class and then the number group, on a subject that goes on
    with such a run and four digits in a row. *)
Lemma tail_capture (n : nat) (hi : option nat) (neg : bool) (items : list cset_item)
    (s : mstate) (run rest : list uchar) (d1 d2 d3 d4 : uchar) :
  m_rest s = run ++ d1 :: d2 :: d3 :: d4 :: rest ->
  Forall (fun c => in_set neg items c = true) run ->
  match hi with Some h => (length run <= h)%nat | None => True end ->
  in_set neg items d1 = false ->
  Forall (fun c => is_ascii_digit (u_code c) = true) [d1; d2; d3; d4] ->
  exists final,
    m (Seq (Repeat 0 hi (In_ neg items)) (Group n number)) Some s = Some final /\
    m_pos final = (m_pos s + length run + 3)%nat /\
    m_caps final
      = (n, ((m_pos s + length run)%nat, (m_pos s + length run + 3)%nat)) :: m_caps s.
Proof.
  intros Hrest Hrun Hhi Hstop Hd.
  set (s1 := consume run s).
  exists (close_group n (m_pos s1) (consume [d1; d2; d3] s1)).
  split; [| split].
  - cbn [m].
    apply (repeat_run _ (in_set neg items) _ _ _ run (d1 :: d2 :: d3 :: d4 :: rest));
      try done.
    + by right.
    + lia.
    + rewrite Hrest, length_app. cbn [length]. lia.
    + apply (number_three_of_four n Some s1 _ d1 d2 d3 d4 rest); try done.
      by apply consume_rest.
  - cbn. subst s1. rewrite consume_pos. lia.
  - cbn. subst s1. rewrite consume_pos, consume_caps. do 3 f_equal. lia.
Qed.

Lemma search_at_start (U : UnicodeData) (r : regex) (text : list N) (final : mstate) :
  m r Some (start_state None (map (classify U) text) 0) = Some final ->
  search U r text =
    Some {| mt_string := text; mt_ngroups := ngroups r; mt_start := 0;
            mt_end := m_pos final; mt_caps := m_caps final |}.
Proof.
  intros Hm. unfold search.
  destruct (map (classify U) text) as [|c l]; cbn [search_from]; by rewrite Hm.
Qed.

(** A pattern made of a label part and the common tail, on a subject that
    starts with the label, goes on with a run of the tail's class and
    then has four digits in a row: the match starts at 0 and the number
    group spans the first three digits. *)
Lemma label_then_number (U : UnicodeData) (HU : conforms U)
    (r : regex) (label : list N) (prev : option uchar)
    (caps0 : list (nat * (nat * nat))) (n : nat) (hi : option nat)
    (neg : bool) (items : list cset_item) (side : list uchar -> Prop) :
  forallb tabulated label = true ->
  (forall X x,
     side X ->
     m (Seq (Repeat 0 hi (In_ neg items)) (Group n number)) Some
       {| m_prev := prev; m_rest := X; m_pos := length label; m_caps := caps0 |}
       = Some x ->
     m r Some (start_state None (map (classify reference) label ++ X) 0) = Some x) ->
  forall (run rest : list N) (d1 d2 d3 d4 : N),
  side (map (classify U) (run ++ d1 :: d2 :: d3 :: d4 :: rest)) ->
  Forall (fun c => in_set neg items (classify U c) = true) run ->
  match hi with Some h => (length run <= h)%nat | None => True end ->
  in_set neg items (classify U d1) = false ->
  Forall (fun c => is_ascii_digit c = true) [d1; d2; d3; d4] ->
  search U r (label ++ run ++ d1 :: d2 :: d3 :: d4 :: rest) =
    Some {| mt_string := label ++ run ++ d1 :: d2 :: d3 :: d4 :: rest;
            mt_ngroups := ngroups r; mt_start := 0;
            mt_end := length label + length run + 3;
            mt_caps := (n, ((length label + length run)%nat,
                            (length label + length run + 3)%nat)) :: caps0 |}.
Proof.
  intros Hlabel Hprefix run rest d1 d2 d3 d4 Hside Hrun Hhi Hstop Hd.
  set (s0 := {| m_prev := prev;
                m_rest := map (classify U) (run ++ d1 :: d2 :: d3 :: d4 :: rest);
                m_pos := length label; m_caps := caps0 |}).
  destruct (tail_capture n hi neg items s0 (map (classify U) run)
              (map (classify U) rest) (classify U d1) (classify U d2)
              (classify U d3) (classify U d4)) as (final & Hm & Hpos & Hcaps).
  - cbn. by rewrite map_app.
  - by apply Forall_map.
  - by rewrite length_map.
  - done.
  - change [classify U d1; classify U d2; classify U d3; classify U d4]
      with (map (classify U) [d1; d2; d3; d4]).
    by apply Forall_map.
  - rewrite length_map in Hpos, Hcaps. cbn [m_pos m_caps s0] in Hpos, Hcaps.
    rewrite <- Hcaps, <- Hpos. apply search_at_start.
    rewrite map_app, (classify_tabulated U HU label Hlabel).
    by apply Hprefix.
Qed.

Lemma group_of_span (text : list N) (ng st en : nat) (n i j : nat)
    (caps : list (nat * (nat * nat))) :
  group {| mt_string := text; mt_ngroups := ng; mt_start := st; mt_end := en;
           mt_caps := (n, (i, j)) :: caps |} n = Some (slice text i j).
Proof. unfold group. cbn. by rewrite Nat.eqb_refl. Qed.

Lemma slice_three (pre : list N) (d1 d2 d3 : N) (rest : list N) (i : nat) :
  i = length pre ->
  slice (pre ++ d1 :: d2 :: d3 :: rest) i (i + 3) = [d1; d2; d3].
Proof.
  intros ->. unfold slice. rewrite drop_app_length.
  by replace (length pre + 3 - length pre)%nat with 3%nat by lia.
Qed.

Lemma last_two {A} (x y : A) : last [x; y] = Some y.
Proof. reflexivity. Qed.

(* ===================================================================== *)
(** * Properties: labels followed by an unseparated run of digits *)
(* ===================================================================== *)

(** ** The label parts of the four patterns, run on their labels *)

Lemma en_split (k : mstate -> option mstate) (s : mstate) :
  m land_pattern_en k s =
  m Boundary (m (Group 1 (Alt (word_i "plot") (word_i "land")))
    (m (Repeat 0 None space) (m (word_i "area") (m Boundary
      (m (Seq (Repeat 0 (Some 80%nat) (In_ true [CRange 48 57])) (Group 2 number))
         k))))) s.
Proof. reflexivity. Qed.

Lemma en_label_run (K : mstate -> option mstate) (X : list uchar) (x : mstate) :
  is_word (head X) = false ->
  K {| m_prev := Some (classify reference 97); m_rest := X;
       m_pos := length (py "Plot area"); m_caps := [(1%nat, (0%nat, 4%nat))] |}
    = Some x ->
  m Boundary (m (Group 1 (Alt (word_i "plot") (word_i "land")))
    (m (Repeat 0 None space) (m (word_i "area") (m Boundary K))))
    (start_state None (map (classify reference) (py "Plot area") ++ X) 0) = Some x.
Proof. intros HX HK. vm_compute in HK, HX. vm_compute. by rewrite HX, HK. Qed.

Lemma lot_split (k : mstate -> option mstate) (s : mstate) :
  m land_pattern_lot k s =
  m Boundary (m (word_i "lot")
    (m (Repeat 0 None space) (m (word_i "size") (m Boundary
      (m (Seq (Repeat 0 (Some 80%nat) (In_ true [CRange 48 57])) (Group 1 number))
         k))))) s.
Proof. reflexivity. Qed.

Lemma lot_label_run (K : mstate -> option mstate) (X : list uchar) (x : mstate) :
  is_word (head X) = false ->
  K {| m_prev := Some (classify reference 101); m_rest := X;
       m_pos := length (py "Lot size"); m_caps := [] |} = Some x ->
  m Boundary (m (word_i "lot")
    (m (Repeat 0 None space) (m (word_i "size") (m Boundary K))))
    (start_state None (map (classify reference) (py "Lot size") ++ X) 0) = Some x.
Proof. intros HX HK. vm_compute in HK, HX. vm_compute. by rewrite HX, HK. Qed.

Lemma gr_split (k : mstate -> option mstate) (s : mstate) :
  m land_pattern_gr k s =
  m (Group 1
       (Alt (seq_of [word_i "εμβαδόν"; Repeat 0 None space; word_i "οικοπέδου"])
       (Alt (word_i "εμβαδόν")
       (Alt (word_i "οικόπεδο") (word_i "οικοπέδου")))))
    (m (Seq (Repeat 0 (Some 120%nat) (In_ true [CRange 48 57])) (Group 2 number)) k)
    s.
Proof. reflexivity. Qed.

Lemma gr_label_run (K : mstate -> option mstate) (X : list uchar) (x : mstate) :
  K {| m_prev := Some (classify reference 965); m_rest := X;
       m_pos := length (py "Εμβαδόν οικοπέδου");
       m_caps := [(1%nat, (0%nat, 17%nat))] |} = Some x ->
  m (Group 1
       (Alt (seq_of [word_i "εμβαδόν"; Repeat 0 None space; word_i "οικοπέδου"])
       (Alt (word_i "εμβαδόν")
       (Alt (word_i "οικόπεδο") (word_i "οικοπέδου"))))) K
    (start_state None (map (classify reference) (py "Εμβαδόν οικοπέδου") ++ X) 0)
    = Some x.
Proof. intros HK. vm_compute in HK. vm_compute. by rewrite HK. Qed.

Lemma price_split (k : mstate -> option mstate) (s : mstate) :
  m price_pattern k s =
  m (Group 1 (Alt (Lit 8364) (word_i "eur")))
    (m (Seq (Repeat 0 None (In_ false [CSpace])) (Group 2 number)) k) s.
Proof. reflexivity. Qed.

Lemma euro_label_run (K : mstate -> option mstate) (X : list uchar) (x : mstate) :
  K {| m_prev := Some (classify reference 8364); m_rest := X;
       m_pos := length (py "€"); m_caps := [(1%nat, (0%nat, 1%nat))] |} = Some x ->
  m (Group 1 (Alt (Lit 8364) (word_i "eur"))) K
    (start_state None (map (classify reference) (py "€") ++ X) 0) = Some x.
Proof. intros HK. vm_compute in HK. vm_compute. by rewrite HK. Qed.

(** ** Tests of the two classes on a classified character *)

Lemma non_digit_test (U : UnicodeData) (c : N) :
  in_set true [CRange 48 57] (classify U c) = negb (is_ascii_digit c).
Proof. unfold in_set, is_ascii_digit. cbn. by rewrite orb_false_r. Qed.

Lemma space_test (U : UnicodeData) (c : N) :
  in_set false [CSpace] (classify U c) = uni_isspace c.
Proof. unfold in_set. cbn. by rewrite orb_false_r. Qed.

Section Unseparated.
Context (U : UnicodeData) (HU : conforms U).
Context (c0 : N) (sep ws rest : list N) (d1 d2 d3 d4 : N).
Context (Hc0 : uni_isalnum U c0 = false) (Hus : c0 <> 95).
Context (Hsep : Forall (fun c => is_ascii_digit c = false) (c0 :: sep)).
Context (Hlen : (length (c0 :: sep) <= 80)%nat).
Context (Hws : Forall (fun c => uni_isspace c = true) ws).
Context (Hd : Forall (fun c => is_ascii_digit c = true) [d1; d2; d3; d4]).

Lemma sep_run : Forall (fun c => in_set true [CRange 48 57] (classify U c) = true)
                       (c0 :: sep).
Proof.
  eapply Forall_impl; [exact Hsep |]. intros c Hc. cbn beta in Hc.
  by rewrite non_digit_test, Hc.
Qed.

Lemma d1_digit : is_ascii_digit d1 = true.
Proof. by apply Forall_cons in Hd as [? _]. Qed.

Lemma sep_side :
  is_word (head (map (classify U) ((c0 :: sep) ++ d1 :: d2 :: d3 :: d4 :: rest)))
  = false.
Proof.
  cbn. rewrite Hc0. by apply N.eqb_neq.
Qed.

Lemma en_match :
  search U land_pattern_en (py "Plot area" ++ (c0 :: sep) ++ d1 :: d2 :: d3 :: d4 :: rest) =
    Some {| mt_string := py "Plot area" ++ (c0 :: sep) ++ d1 :: d2 :: d3 :: d4 :: rest;
            mt_ngroups := ngroups land_pattern_en; mt_start := 0;
            mt_end := length (py "Plot area") + length (c0 :: sep) + 3;
            mt_caps := [(2%nat, ((length (py "Plot area") + length (c0 :: sep))%nat,
                                 (length (py "Plot area") + length (c0 :: sep) + 3)%nat));
                        (1%nat, (0%nat, 4%nat))] |}.
Proof.
  apply (label_then_number U HU land_pattern_en (py "Plot area")
           (Some (classify reference 97)) [(1%nat, (0%nat, 4%nat))] 2
           (Some 80%nat) true [CRange 48 57]
           (fun X => is_word (head X) = false)).
  - reflexivity.
  - intros X x HX HK. rewrite en_split. by apply en_label_run.
  - apply sep_side.
  - apply sep_run.
  - exact Hlen.
  - by rewrite non_digit_test, d1_digit.
  - exact Hd.
Qed.

Lemma en_capture :
  search U land_pattern_en (py "Plot area" ++ (c0 :: sep) ++ d1 :: d2 :: d3 :: d4 :: rest)
  ≫= (fun mt => group mt 2) = Some [d1; d2; d3].
Proof.
  rewrite en_match. cbn [mbind option_bind]. rewrite group_of_span. f_equal.
  rewrite app_assoc. apply slice_three. by rewrite length_app.
Qed.

Lemma lot_capture :
  search U land_pattern_lot (py "Lot size" ++ (c0 :: sep) ++ d1 :: d2 :: d3 :: d4 :: rest)
  ≫= (fun mt => group mt 1) = Some [d1; d2; d3].
Proof.
  rewrite (label_then_number U HU land_pattern_lot (py "Lot size")
             (Some (classify reference 101)) [] 1
             (Some 80%nat) true [CRange 48 57]
             (fun X => is_word (head X) = false)).
  - cbn [mbind option_bind]. rewrite group_of_span. f_equal.
    rewrite app_assoc. apply slice_three. by rewrite length_app.
  - reflexivity.
  - intros X x HX HK. rewrite lot_split. by apply lot_label_run.
  - apply sep_side.
  - apply sep_run.
  - exact Hlen.
  - by rewrite non_digit_test, d1_digit.
  - exact Hd.
Qed.

Lemma gr_capture :
  search U land_pattern_gr
    (py "Εμβαδόν οικοπέδου" ++ (c0 :: sep) ++ d1 :: d2 :: d3 :: d4 :: rest)
  ≫= (fun mt => group mt 2) = Some [d1; d2; d3].
Proof.
  rewrite (label_then_number U HU land_pattern_gr (py "Εμβαδόν οικοπέδου")
             (Some (classify reference 965)) [(1%nat, (0%nat, 17%nat))] 2
             (Some 120%nat) true [CRange 48 57] (fun _ => True)).
  - cbn [mbind option_bind]. rewrite group_of_span. f_equal.
    rewrite app_assoc. apply slice_three. by rewrite length_app.
  - reflexivity.
  - intros X x _ HK. rewrite gr_split. by apply gr_label_run.
  - done.
  - apply sep_run.
  - cbn [length] in *. lia.
  - by rewrite non_digit_test, d1_digit.
  - exact Hd.
Qed.

Lemma price_match :
  search U price_pattern (py "€" ++ ws ++ d1 :: d2 :: d3 :: d4 :: rest) =
    Some {| mt_string := py "€" ++ ws ++ d1 :: d2 :: d3 :: d4 :: rest;
            mt_ngroups := ngroups price_pattern; mt_start := 0;
            mt_end := length (py "€") + length ws + 3;
            mt_caps := [(2%nat, ((length (py "€") + length ws)%nat,
                                 (length (py "€") + length ws + 3)%nat));
                        (1%nat, (0%nat, 1%nat))] |}.
Proof.
  apply (label_then_number U HU price_pattern (py "€")
           (Some (classify reference 8364)) [(1%nat, (0%nat, 1%nat))] 2
           None false [CSpace] (fun _ => True)).
  - reflexivity.
  - intros X x _ HK. rewrite price_split. by apply euro_label_run.
  - done.
  - eapply Forall_impl; [exact Hws |]. intros c Hc. by rewrite space_test.
  - done.
  - rewrite space_test. destruct (uni_isspace d1) eqn:E; [| done].
    apply isspace_not_ascii_digit in E. by rewrite d1_digit in E.
  - exact Hd.
Qed.

Lemma price_capture :
  search U price_pattern (py "€" ++ ws ++ d1 :: d2 :: d3 :: d4 :: rest)
  ≫= (fun mt => group mt 2) = Some [d1; d2; d3].
Proof.
  rewrite price_match. cbn [mbind option_bind]. rewrite group_of_span. f_equal.
  rewrite app_assoc. apply slice_three. by rewrite length_app.
Qed.


Lemma ascii_digit_decimal (d : N) :
  is_ascii_digit d = true -> uni_decimal U d = Some ((Z.of_N d - 48)%Z).
Proof.
  intros Hdig. rewrite (conf_decimal U HU).
  - unfold ref_decimal. rewrite Hdig. f_equal.
    unfold is_ascii_digit in Hdig. apply andb_true_iff in Hdig as [H1 _].
    apply N.leb_le in H1. lia.
  - unfold tabulated. unfold is_ascii_digit in Hdig.
    apply andb_true_iff in Hdig as [_ H2]. apply N.leb_le in H2.
    assert ((d <? 128) = true) as -> by (apply N.ltb_lt; lia). done.
Qed.

Lemma clean_int_three_digits :
  clean_int U (Some [d1; d2; d3]) =
    Some (100 * (Z.of_N d1 - 48) + 10 * (Z.of_N d2 - 48) + (Z.of_N d3 - 48))%Z.
Proof.
  apply Forall_cons in Hd as [H1 Hd']. apply Forall_cons in Hd' as [H2 Hd'].
  apply Forall_cons in Hd' as [H3 _].
  rewrite (clean_int_digits U HU).
  assert (forall d, is_ascii_digit d = true -> is_decimal U d = true) as Hdec.
  { intros d Hdig. unfold is_decimal. by rewrite (ascii_digit_decimal d Hdig). }
  rewrite !filter_cons_True by by apply Hdec. rewrite filter_nil.
  unfold int_of_digits. cbn [fold_left].
  rewrite !ascii_digit_decimal by done. cbn [default]. unfold id. apply (f_equal Some). lia.
Qed.

Lemma price_field :
  dict_get (extract_fields U (py "€" ++ ws ++ d1 :: d2 :: d3 :: d4 :: rest)) "price_eur"
  = Some (100 * (Z.of_N d1 - 48) + 10 * (Z.of_N d2 - 48) + (Z.of_N d3 - 48))%Z.
Proof.
  unfold extract_fields, dict_get. cbv zeta.
  rewrite lookup_insert_ne, lookup_insert_eq by done. cbn [default].
  rewrite price_match, group_of_span.
  rewrite app_assoc, slice_three by by rewrite length_app.
  apply clean_int_three_digits.
Qed.

Lemma land_field :
  (100 * (Z.of_N d1 - 48) + 10 * (Z.of_N d2 - 48) + (Z.of_N d3 - 48))%Z <> 0%Z ->
  dict_get (extract_fields U (py "Plot area" ++ (c0 :: sep) ++ d1 :: d2 :: d3 :: d4 :: rest))
    "land_m2"
  = Some (100 * (Z.of_N d1 - 48) + 10 * (Z.of_N d2 - 48) + (Z.of_N d3 - 48))%Z.
Proof.
  intros Hnz. unfold extract_fields, dict_get. cbv zeta.
  rewrite lookup_insert_eq. cbn [default].
  unfold land_patterns. cbn [land_loop]. rewrite en_match. cbv zeta.
  replace (default None (last (groups _))) with (Some [d1; d2; d3]).
  - rewrite clean_int_three_digits. cbn [truthy].
    apply Z.eqb_neq in Hnz. by rewrite Hnz.
  - unfold groups. cbn [mt_ngroups].
    change (ngroups land_pattern_en) with 2%nat. cbn [seq map].
    rewrite last_two. cbn [default]. rewrite group_of_span.
    rewrite app_assoc, slice_three by by rewrite length_app. done.
Qed.

End Unseparated.

(* ===================================================================== *)
(** * Properties: field extractor *)
(* ===================================================================== *)

Lemma fields_land (U : UnicodeData) (text : list N) :
  dict_get (extract_fields U text) "land_m2" = land_loop U land_patterns text None.
Proof. unfold extract_fields, dict_get. cbv zeta. by rewrite lookup_insert_eq. Qed.

Lemma fields_price (U : UnicodeData) (text : list N) :
  dict_get (extract_fields U text) "price_eur" =
    match search U price_pattern text with
    | Some mt => clean_int U (group mt 2)
    | None => None
    end.
Proof.
  unfold extract_fields, dict_get. cbv zeta.
  rewrite lookup_insert_ne by done. by rewrite lookup_insert_eq.
Qed.

Lemma fields_area (U : UnicodeData) (text : list N) :
  dict_get (extract_fields U text) "area_m2" =
    match search U area_pattern text with
    | Some mt => clean_int U (group mt 1)
    | None => None
    end.
Proof.
  unfold extract_fields, dict_get. cbv zeta.
  do 2 (rewrite lookup_insert_ne by done). by rewrite lookup_insert_eq.
Qed.



(** C5. The number is captured as one to three digits followed by groups
    of a separator and exactly three digits.  So when the label (here
    "Plot area", "Lot size", "Εμβαδόν οικοπέδου" followed by at most 80
    characters that are not digits, the first of them not a word
    character; or the euro sign followed by white space) is followed by
    four or more digits in a row, the group holds the first three only,
    and the field is their value: "Plot area: 2640" gives a land area of
    264 and "€ 350000" a price of 350. *)
Theorem unseparated_digits_capture_three (U : UnicodeData)
    (c0 : N) (sep ws rest : list N) (d1 d2 d3 d4 : N) :
  conforms U ->
  uni_isalnum U c0 = false -> c0 <> 95 ->
  Forall (fun c => is_ascii_digit c = false) (c0 :: sep) ->
  (length (c0 :: sep) <= 80)%nat ->
  Forall (fun c => uni_isspace c = true) ws ->
  Forall (fun c => is_ascii_digit c = true) [d1; d2; d3; d4] ->
  let digits := d1 :: d2 :: d3 :: d4 :: rest in
  let value := (100 * (Z.of_N d1 - 48) + 10 * (Z.of_N d2 - 48) + (Z.of_N d3 - 48))%Z in
  (search U land_pattern_en (py "Plot area" ++ (c0 :: sep) ++ digits)
     ≫= (fun mt => group mt 2)) = Some [d1; d2; d3] /\
  (search U land_pattern_lot (py "Lot size" ++ (c0 :: sep) ++ digits)
     ≫= (fun mt => group mt 1)) = Some [d1; d2; d3] /\
  (search U land_pattern_gr (py "Εμβαδόν οικοπέδου" ++ (c0 :: sep) ++ digits)
     ≫= (fun mt => group mt 2)) = Some [d1; d2; d3] /\
  (search U price_pattern (py "€" ++ ws ++ digits)
     ≫= (fun mt => group mt 2)) = Some [d1; d2; d3] /\
  dict_get (extract_fields U (py "€" ++ ws ++ digits)) "price_eur" = Some value /\
  (value <> 0%Z ->
   dict_get (extract_fields U (py "Plot area" ++ (c0 :: sep) ++ digits)) "land_m2"
     = Some value) /\
  dict_get (extract_fields U (py "Plot area: 2640")) "land_m2" = Some 264%Z /\
  dict_get (extract_fields U (py "€ 350000")) "price_eur" = Some 350%Z.
Proof.
  intros HU Hc0 Hus Hsep Hlen Hws Hd digits value. subst digits value.
  split; [by apply en_capture |].
  split; [by apply lot_capture |].
  split; [by apply gr_capture |].
  split; [by apply price_capture |].
  split; [eapply price_field; eassumption |].
  split; [by apply land_field |].
  rewrite !(extract_fields_tabulated U HU) by (vm_compute; reflexivity).
  split; vm_compute; reflexivity.
Qed.

Lemma unseparated_digits_capture_three_witness :
  (search reference land_pattern_en (py "Plot area" ++ [58; 32] ++ [50; 54; 52; 48])
     ≫= (fun mt => group mt 2)) = Some [50; 54; 52] /\
  dict_get (extract_fields reference (py "€" ++ [32] ++ [51; 53; 48; 48; 48; 48]))
    "price_eur" = Some 350%Z.
Proof.
  split.
  - apply (unseparated_digits_capture_three reference 58 [32] [32] [] 50 54 52 48).
    + exact reference_conforms.
    + reflexivity.
    + discriminate.
    + by repeat constructor.
    + cbn. lia.
    + by repeat constructor.
    + by repeat constructor.
  - apply (unseparated_digits_capture_three reference 58 [32] [32] [48; 48] 51 53 48 48).
    + exact reference_conforms.
    + reflexivity.
    + discriminate.
    + by repeat constructor.
    + cbn. lia.
    + by repeat constructor.
    + by repeat constructor.
Defined.



(* ===================================================================== *)
(** * Further properties: the sweep *)
(* ===================================================================== *)

Section SweepMore.
Context (cfg : Config) (env : Env).

(** X1. [gc_seen] only removes: what it leaves is part of what it found, so
    the store never grows in a sweep and no timestamp changes. *)
Theorem gc_seen_only_removes (s : St) :
  _seen (fst (gc_seen cfg env s)) ⊆ _seen s /\
  (size (_seen (fst (gc_seen cfg env s))) <= size (_seen s))%nat /\
  snd (gc_seen cfg env s) = Ok tt /\
  calls (fst (gc_seen cfg env s)) = calls s.
Proof.
  rewrite gc_seen_sweep. cbn [fst snd _seen calls].
  assert (sweep cfg (clock env (reads s)) (_seen s) ⊆ _seen s) as Hsub
    by apply map_filter_subseteq.
  split; [done |]. split; [by apply map_subseteq_size | done].
Qed.

End SweepMore.

(* ===================================================================== *)
(** * Further properties: the handler *)
(* ===================================================================== *)

Section HandlerMore.
Context (U : UnicodeData) (sha256_hexdigest : list N -> list N) (cfg : Config).

(** X2. Running the sweep at one reading and then at a later one leaves the
    store a single sweep at the later reading leaves. *)
Theorem gc_seen_twice (env1 env2 : Env) (s : St) :
  (clock env1 (reads s) <= clock env2 (S (reads s)))%Q ->
  _seen (fst (gc_seen cfg env2 (fst (gc_seen cfg env1 s)))) =
  _seen (fst (gc_seen cfg env2
                {| _seen := _seen s; reads := S (reads s); calls := calls s |})).
Proof.
  intros Hle. rewrite !gc_seen_sweep. cbn [fst _seen reads].
  apply map_eq. intros k.
  destruct (sweep cfg (clock env2 (S (reads s))) (_seen s) !! k) as [v |] eqn:E.
  - apply sweep_lookup_Some in E as [E Hage].
    apply sweep_lookup_Some. split; [| done].
    apply sweep_lookup_Some. split; [done | lra].
  - destruct (sweep cfg _ (sweep cfg _ (_seen s)) !! k) as [v |] eqn:E'; [| done].
    apply sweep_lookup_Some in E' as [E' Hage].
    apply sweep_lookup_Some in E' as [E' _].
    assert (sweep cfg (clock env2 (S (reads s))) (_seen s) !! k = Some v) as E''
      by by apply sweep_lookup_Some.
    congruence.
Qed.

(** X3. A request changes the store in two ways only: the sweep drops
    entries, and the request's own key is stamped.  Every other entry of
    the final store is an entry of the initial one, the key of the
    request is always present afterwards, and the store grows by at most
    one entry. *)
Theorem webhook_store_change (env : Env) (seen : gmap (list N) Q) (payload : Payload) :
  let key := dedup_key sha256_hexdigest (url payload) in
  let final := fst (fst (serve U sha256_hexdigest cfg env seen payload)) in
  delete key final ⊆ seen /\
  (final !! key = seen !! key \/ final !! key = Some (clock env 1%nat)) /\
  is_Some (final !! key) /\
  (size final <= S (size seen))%nat.
Proof.
  intros key final.
  assert (final = sweep cfg (clock env 0) seen /\
          is_Some (sweep cfg (clock env 0) seen !! key) \/
          final = <[key := clock env 1%nat]> (sweep cfg (clock env 0) seen))
    as Hfinal.
  { subst final. rewrite serve_paths. cbv zeta. fold key.
    case_bool_decide as Hseen; [by left |]. right.
    destruct (browser env (url payload)) as [html text | e].
    - destruct (looks_like_challenge U (Some html)); [done |].
      destruct (dict_get _ "land_m2"); [| done].
      by destruct (negb _ && _).
    - by destruct e. }
  assert (sweep cfg (clock env 0) seen ⊆ seen) as Hsub by apply map_filter_subseteq.
  destruct Hfinal as [[-> [v Hv]] | ->].
  - split; [| split; [| split]].
    + etrans; [apply delete_subseteq | done].
    + left. rewrite Hv. symmetry. by apply sweep_lookup_Some in Hv as [? _].
    + by exists v.
    + apply map_subseteq_size in Hsub. lia.
  - split; [| split; [| split]].
    + rewrite delete_insert_eq. etrans; [apply delete_subseteq | done].
    + right. apply lookup_insert_eq.
    + rewrite lookup_insert_eq. by eexists.
    + apply map_subseteq_size in Hsub.
      pose proof (map_size_insert key (clock env 1%nat) (sweep cfg (clock env 0) seen))
        as Hsz.
      destruct (sweep cfg (clock env 0) seen !! key); cbn in Hsz; lia.
Qed.



End HandlerMore.

Lemma gc_seen_twice_witness :
  let s := {| _seen := {[ [1] := 10%Q ]}; reads := 0; calls := [] |} in
  let env1 := Scenario.env_at 50 [] in
  let env2 := Scenario.env_at 100 [] in
  _seen (fst (gc_seen default_config env2 (fst (gc_seen default_config env1 s)))) =
  _seen (fst (gc_seen default_config env2
                {| _seen := _seen s; reads := S (reads s); calls := calls s |})).
Proof.
  intros s env1 env2. apply (gc_seen_twice default_config env1 env2 s).
  vm_compute. discriminate.
Defined.

Section Delivery.
Context (U : UnicodeData) (sha256_hexdigest : list N -> list N).

(** X6. [telegram_send] succeeds exactly when both credentials are set and
    the endpoint answers with status 200; any other status, 2xx
    included, is raised as a [RuntimeError] that quotes the status and
    the response text, and an exception of the HTTP client passes
    through. *)
Theorem telegram_send_ok_iff (cfg : Config) (env : Env) (msg : list N) (s : St) :
  let endpoint := py "https://api.telegram.org/bot" ++ TELEGRAM_BOT_TOKEN cfg
                  ++ py "/sendMessage" in
  let data := {| chat_id := TELEGRAM_CHAT_ID cfg; text := msg;
                 disable_web_page_preview := DISABLE_PREVIEW cfg |} in
  fst (telegram_send cfg env msg s) = s /\
  (snd (telegram_send cfg env msg s) = Ok tt <->
   TELEGRAM_BOT_TOKEN cfg <> [] /\ TELEGRAM_CHAT_ID cfg <> [] /\
   exists reply, http_post env endpoint data = Response 200 reply) /\
  (forall code reply,
     TELEGRAM_BOT_TOKEN cfg <> [] -> TELEGRAM_CHAT_ID cfg <> [] ->
     http_post env endpoint data = Response code reply -> code <> 200%Z ->
     snd (telegram_send cfg env msg s) =
       Raised (RuntimeError (py "Telegram error: " ++ str_of_int code ++ [32] ++ reply))).
Proof.
  intros endpoint data. unfold telegram_send. fold endpoint data.
  destruct (decide (TELEGRAM_BOT_TOKEN cfg = [])) as [Htok | Htok].
  { rewrite (bool_decide_eq_true_2 _ Htok). cbn [orb]. unfold raise. cbn [fst snd].
    split; [done |]. split; [| done].
    split; [discriminate | by intros [? _]]. }
  rewrite (bool_decide_eq_false_2 _ Htok). cbn [orb].
  destruct (decide (TELEGRAM_CHAT_ID cfg = [])) as [Hchat | Hchat].
  { rewrite (bool_decide_eq_true_2 _ Hchat). unfold raise. cbn [fst snd].
    split; [done |]. split; [| done].
    split; [discriminate | by intros (_ & ? & _)]. }
  rewrite (bool_decide_eq_false_2 _ Hchat).
  destruct (http_post env endpoint data) as [code reply | e] eqn:Hp.
  - destruct (Z.eqb_spec code 200) as [-> | Hne]; cbn [negb]; unfold raise, ret;
      cbn [fst snd].
    + split; [done |]. split.
      * split; [| done]. intros _. split; [done |]. split; [done |]. by exists reply.
      * intros c r _ _ [= <- <-] Hc. done.
    + split; [done |]. split.
      * split; [discriminate |]. intros (_ & _ & r & [= -> _]). done.
      * intros c r _ _ [= <- <-] _. done.
  - unfold raise. cbn [fst snd]. split; [done |]. split.
    + split; [discriminate | intros (_ & _ & r & ?); discriminate].
    + intros c r _ _ ?. discriminate.
Qed.

(** X7. Without credentials (the default configuration) nothing is ever
    posted: the send fails before the HTTP client is consulted, so a
    listing that passes every gate is answered 502, and its URL is
    marked as seen all the same. *)
Theorem no_credentials_never_posts (cfg : Config) (env : Env)
    (seen : gmap (list N) Q) (payload : Payload) :
  TELEGRAM_BOT_TOKEN cfg = [] \/ TELEGRAM_CHAT_ID cfg = [] ->
  let out := serve U sha256_hexdigest cfg env seen payload in
  (forall msg,
     delivery cfg env msg =
       Raised (RuntimeError (py "Missing TELEGRAM_BOT_TOKEN / TELEGRAM_CHAT_ID"))) /\
  (forall land fields, snd (fst out) <> Ok (posted (url payload) land fields)) /\
  ((exists msg, CallSend msg ∈ snd out) ->
   snd (fst out) =
     Raised (HTTPException 502
               (py "Telegram send failed: Missing TELEGRAM_BOT_TOKEN / TELEGRAM_CHAT_ID")) /\
   fst (fst out) !! dedup_key sha256_hexdigest (url payload) = Some (clock env 1%nat)).
Proof.
  intros Hcred out.
  assert (forall msg,
     delivery cfg env msg =
       Raised (RuntimeError (py "Missing TELEGRAM_BOT_TOKEN / TELEGRAM_CHAT_ID")))
    as Hd.
  { intros msg. unfold delivery, telegram_send.
    destruct Hcred as [Hc | Hc]; rewrite (bool_decide_eq_true_2 _ Hc).
    - done.
    - by rewrite orb_true_r. }
  split; [done |]. subst out. rewrite serve_paths. cbv zeta.
  assert (forall (r : result body) land fields,
    match r with Ok b => length b <> 4%nat | Raised _ => True end ->
    r <> Ok (posted (url payload) land fields)) as Hlen.
  { intros r land fields Hr ->. by apply Hr. }
  assert (forall (l : list call) (P : Prop),
    Forall (fun c => forall m, c <> CallSend m) l ->
    (exists msg, CallSend msg ∈ l) -> P) as Hno.
  { intros l P Hall [msg Hin]. eapply Forall_forall in Hall; [| done].
    by destruct (Hall msg). }
  destruct (bool_decide _).
  { split; [intros; by apply Hlen |]. apply Hno. constructor. }
  destruct (browser env (url payload)) as [html text | e].
  - destruct (looks_like_challenge U (Some html)).
    { split; [intros; by apply Hlen |]. apply Hno. repeat (constructor; [by intros m |]). constructor. }
    generalize (extract_fields U (clamped cfg text)). intros fields.
    destruct (dict_get fields "land_m2") as [land |].
    + destruct (negb _ && _).
      { split; [intros; by apply Hlen |]. apply Hno. repeat (constructor; [by intros m |]). constructor. }
      rewrite Hd. cbn [fst snd]. split; [intros; by apply Hlen |]. intros _.
      split; [| apply lookup_insert_eq].
      vm_compute. reflexivity.
    + split; [intros; by apply Hlen |]. apply Hno. repeat (constructor; [by intros m |]). constructor.
  - destruct e; (split; [intros; by apply Hlen |]); apply Hno;
      repeat (constructor; [by intros m |]); constructor.
Qed.

(** X8. With the threshold at 0 (the default) the filter is off: no request
    is answered [filtered_out], whatever land area is extracted, zero
    included. *)
Theorem zero_threshold_never_filters (cfg : Config) (env : Env)
    (seen : gmap (list N) Q) (payload : Payload) :
  MIN_LAND_M2 cfg = 0%Z ->
  forall u land,
    snd (fst (serve U sha256_hexdigest cfg env seen payload)) <> Ok (filtered_out u land).
Proof.
  intros HT u land. rewrite serve_paths. cbv zeta. rewrite HT. cbn [Z.eqb negb andb].
  destruct (bool_decide _); [done |].
  destruct (browser env (url payload)) as [html text | e].
  - destruct (looks_like_challenge U (Some html)); [done |].
    destruct (dict_get _ "land_m2"); [| done].
    by destruct (delivery _ _ _).
  - by destruct e.
Qed.

(** X9. When the TTL is negative and no stored timestamp lies in the future,
    the sweep empties the store, so nothing is ever deduplicated. *)
Theorem negative_ttl_never_skips (cfg : Config) (env : Env)
    (seen : gmap (list N) Q) (payload : Payload) :
  (DEDUP_TTL_SECONDS cfg < 0)%Z ->
  map_Forall (fun _ v => (v <= clock env 0)%Q) seen ->
  _seen (fst (gc_seen cfg env {| _seen := seen; reads := 0; calls := [] |})) = ∅ /\
  snd (fst (serve U sha256_hexdigest cfg env seen payload)) <> Ok dedup_skipped.
Proof.
  intros Hneg Hpast.
  assert (sweep cfg (clock env 0) seen = ∅) as Hempty.
  { apply map_empty. intros k.
    destruct (sweep cfg (clock env 0) seen !! k) as [v |] eqn:E; [| done].
    apply sweep_lookup_Some in E as [E Hage].
    apply Hpast in E. cbn in E.
    assert (inject_Z (DEDUP_TTL_SECONDS cfg) < 0)%Q.
    { change 0%Q with (inject_Z 0). by rewrite <- Zlt_Qlt. }
    lra. }
  rewrite gc_seen_sweep. cbn [fst _seen reads]. split; [done |].
  apply serve_fresh_shape. by rewrite Hempty.
Qed.

(** X10. [fetch_page_text] hands on the markup as rendered and, for a cap
    that is not negative, a prefix of the body text no longer than the
    cap (the whole text when it is within the cap); what the browser
    raises is raised on, and the store is not touched. *)
Theorem fetch_page_text_caps_text (cfg : Config) (env : Env) (u : list N) (s : St) :
  (0 <= MAX_TEXT_CHARS cfg)%Z ->
  fst (fetch_page_text cfg env u s) = s /\
  match browser env u with
  | Rendered html text =>
    exists text',
      snd (fetch_page_text cfg env u s) = Ok (html, text') /\
      text' `prefix_of` text /\
      (Z.of_nat (length text') <= MAX_TEXT_CHARS cfg)%Z /\
      ((Z.of_nat (length text) <= MAX_TEXT_CHARS cfg)%Z -> text' = text)
  | RenderRaised e => snd (fetch_page_text cfg env u s) = Raised e
  end.
Proof.
  intros Hcap. unfold fetch_page_text.
  destruct (browser env u) as [html text | e]; [| done].
  split; [done |]. cbn [snd ret].
  destruct (Z.ltb_spec (MAX_TEXT_CHARS cfg) (Z.of_nat (length text))) as [Hlt | Hge].
  - eexists. split; [done |]. split; [apply prefix_take |].
    rewrite length_take. split; lia.
  - exists text. split; [done |]. split; [done |]. split; [lia | done].
Qed.

End Delivery.

(* ===================================================================== *)
(** * Further properties: detectors *)
(* ===================================================================== *)

Lemma is_ascii_app (a b : list N) :
  is_ascii (a ++ b) = true <-> is_ascii a = true /\ is_ascii b = true.
Proof. unfold is_ascii. by rewrite forallb_app, andb_true_iff. Qed.

(** X11. On an ASCII page the detector is insensitive to letter case: a page
    that contains a marker, written in any mix of upper and lower case,
    anywhere in the markup, is a challenge. *)
Theorem challenge_marker_in_any_case (U : UnicodeData) (before word after : list N) :
  conforms U ->
  is_ascii (before ++ word ++ after) = true ->
  map ref_tolower word ∈ challenge_markers ->
  looks_like_challenge U (Some (before ++ word ++ after)) = true.
Proof.
  intros HU Hascii Hin. unfold looks_like_challenge. cbn [default from_option id].
  rewrite (conf_lower U HU) by done. rewrite !List.map_app.
  apply existsb_exists. exists (map ref_tolower word).
  split; [by apply list_elem_of_In |].
  apply contains_spec. eauto.
Qed.

Lemma challenge_marker_in_any_case_witness :
  looks_like_challenge reference
    (Some (py "<title>" ++ py "Checking Your Browser" ++ py "</title>")) = true.
Proof.
  apply (challenge_marker_in_any_case reference).
  - exact reference_conforms.
  - vm_compute. reflexivity.
  - vm_compute. by repeat constructor.
Defined.

(** X12. The service's detector is the smoke test's detector plus the markers
    "/cdn-cgi/" and "turnstile": its answer is the smoke test's answer
    or one of the two extra markers being present.  So whatever the
    smoke test reports as BLOCKED the service refuses with 403 on a
    first sighting. *)
Theorem smoke_detector_is_weaker (U : UnicodeData)
    (sha256_hexdigest : list N -> list N) (cfg : Config) (env : Env)
    (seen : gmap (list N) Q) (payload : Payload) (html text : list N) :
  let h := str_lower U html in
  looks_like_challenge U (Some html) =
    Smoke.looks_like_challenge U (Some html)
    || contains (py "/cdn-cgi/") h || contains (py "turnstile") h /\
  (Smoke.verdict U html = py "BLOCKED" ->
   sweep cfg (clock env 0) seen !! dedup_key sha256_hexdigest (url payload) = None ->
   browser env (url payload) = Rendered html text ->
   snd (fst (serve U sha256_hexdigest cfg env seen payload)) =
     Raised (HTTPException 403 (py "Blocked by challenge/CAPTCHA"))).
Proof.
  intros h.
  assert (looks_like_challenge U (Some html) =
    Smoke.looks_like_challenge U (Some html)
    || contains (py "/cdn-cgi/") h || contains (py "turnstile") h) as Hsplit.
  { unfold looks_like_challenge, Smoke.looks_like_challenge,
      challenge_markers, Smoke.challenge_markers.
    cbn [default from_option id existsb]. fold h.
    rewrite !orb_false_r.
    destruct (contains (py "captcha") h), (contains (py "cf-challenge") h),
      (contains (py "cloudflare") h), (contains (py "checking your browser") h),
      (contains (py "/cdn-cgi/") h), (contains (py "turnstile") h); reflexivity. }
  split; [exact Hsplit |].
  intros Hverdict Hfresh Hrender.
  assert (Smoke.looks_like_challenge U (Some html) = true) as Hsmoke.
  { unfold Smoke.verdict in Hverdict.
    destruct (Smoke.looks_like_challenge U (Some html)); [done |].
    exfalso. revert Hverdict. vm_compute. discriminate. }
  rewrite serve_paths. cbv zeta.
  rewrite bool_decide_eq_false_2 by (rewrite Hfresh; by intros [? ?]).
  rewrite Hrender, Hsplit, Hsmoke. reflexivity.
Qed.

(* ===================================================================== *)
(** * Further properties: short pages *)
(* ===================================================================== *)

Lemma startswith_length (needle hay : list N) :
  startswith needle hay = true -> (length needle <= length hay)%nat.
Proof.
  revert hay. induction needle as [|a n IH]; intros hay H; [cbn; lia |].
  destruct hay as [|b h]; [discriminate |].
  cbn [startswith] in H. apply andb_true_iff in H as [_ H].
  apply IH in H. cbn [length]. lia.
Qed.

Lemma contains_length (needle hay : list N) :
  contains needle hay = true -> (length needle <= length hay)%nat.
Proof.
  induction hay as [|b h IH]; cbn [contains]; intros H.
  - rewrite orb_false_r in H. by apply startswith_length in H.
  - apply orb_true_iff in H as [H | H].
    + by apply startswith_length in H.
    + apply IH in H. cbn [length]. lia.
Qed.

(** X13. Missing markup counts as an empty page, and an empty page, or any
    ASCII page shorter than the shortest marker (seven characters), is
    not a challenge. *)
Theorem short_page_is_not_challenge (U : UnicodeData) (html : list N) :
  conforms U ->
  is_ascii html = true ->
  (length html < 7)%nat ->
  looks_like_challenge U None = looks_like_challenge U (Some []) /\
  looks_like_challenge U None = false /\
  looks_like_challenge U (Some html) = false.
Proof.
  intros HU Hascii Hlen.
  assert (forall page, is_ascii page = true -> (length page < 7)%nat ->
                       looks_like_challenge U (Some page) = false) as Hshort.
  { intros page Hp Hl. unfold looks_like_challenge. cbn [default from_option id].
    rewrite (conf_lower U HU) by done.
    destruct (existsb _ challenge_markers) eqn:E; [| done].
    apply existsb_exists in E as (marker & Hin & Hc).
    apply contains_length in Hc. rewrite length_map in Hc.
    assert (Forall (fun x => (7 <= length x)%nat) challenge_markers) as Hm.
    { unfold challenge_markers. repeat (constructor; [vm_compute; lia |]). constructor. }
    apply list_elem_of_In in Hin.
    eapply Forall_forall in Hm; [| exact Hin]. cbn in Hm. lia. }
  split; [done |]. split; [| by apply Hshort].
  change (looks_like_challenge U None) with (looks_like_challenge U (Some [])).
  apply Hshort; [done | cbn; lia].
Qed.

Lemma short_page_is_not_challenge_witness :
  looks_like_challenge reference (Some [99; 97; 112; 116; 99; 104]) = false.
Proof.
  apply (short_page_is_not_challenge reference [99; 97; 112; 116; 99; 104]).
  - exact reference_conforms.
  - reflexivity.
  - cbn. lia.
Defined.

(* ===================================================================== *)
(** * Further properties: the land loop and the normalization *)
(* ===================================================================== *)

Lemma default_last_cons {A} (acc x : A) (l : list A) :
  default acc (last (x :: l)) = default x (last l).
Proof. rewrite last_cons. by destruct (last l). Qed.

(** X14. The land loop, in closed form.  Among the values of the patterns
    that match, in pattern order, the first that is a non-zero integer
    wins; when there is none, the value of the last pattern that matched
    stays (a zero, or nothing), and without any match the land area is
    absent. *)
Theorem land_loop_first_nonzero (U : UnicodeData) (pats : list Re.regex)
    (text : list N) (acc : option Z) :
  land_loop U pats text acc =
    match List.find truthy (land_candidates U pats text) with
    | Some v => v
    | None => default acc (last (land_candidates U pats text))
    end /\
  dict_get (extract_fields U text) "land_m2" =
    match List.find truthy (land_candidates U land_patterns text) with
    | Some v => v
    | None => default None (last (land_candidates U land_patterns text))
    end.
Proof.
  assert (forall ps a,
    land_loop U ps text a =
      match List.find truthy (land_candidates U ps text) with
      | Some v => v
      | None => default a (last (land_candidates U ps text))
      end) as Hloop.
  { induction ps as [|pat ps IH]; intros a; [done |].
    assert (land_candidates U (pat :: ps) text =
            match Re.search U pat text with
            | Some mt =>
              clean_int U (default None (last (Re.groups mt)))
                :: land_candidates U ps text
            | None => land_candidates U ps text
            end) as -> by (unfold land_candidates; cbn; by destruct (Re.search _ _ _)).
    cbn [land_loop].
    destruct (Re.search U pat text) as [mt |]; [| apply IH].
    cbv zeta. cbn [List.find].
    destruct (truthy _) eqn:Ht; [done |].
    rewrite IH, default_last_cons. done. }
  split; [apply Hloop |]. rewrite fields_land. apply Hloop.
Qed.

Section NormalizationMore.
Context (U : UnicodeData) (HU : conforms U).

(** X15. [clean_int] reads the digits only: a character that is not a decimal
    digit can be put anywhere in the string, or taken out, without
    changing the result. *)
Theorem clean_int_ignores_non_digits (before after : list N) (c : N) :
  is_decimal U c = false ->
  clean_int U (Some (before ++ c :: after)) = clean_int U (Some (before ++ after)).
Proof.
  intros Hc. rewrite !(clean_int_digits U HU), !filter_app.
  rewrite (filter_cons_False _ c); [done |]. by rewrite Hc.
Qed.

Lemma decimal_of_digit_code (k : N) :
  k < 10 -> uni_decimal U (48 + k) = Some (Z.of_N k).
Proof.
  intros Hk. rewrite (conf_decimal U HU).
  - unfold ref_decimal, is_ascii_digit.
    rewrite (proj2 (N.leb_le 48 (48 + k))) by lia.
    rewrite (proj2 (N.leb_le (48 + k) 57)) by lia.
    cbn [andb]. f_equal. lia.
  - unfold tabulated. rewrite (proj2 (N.ltb_lt (48 + k) 128)) by lia. done.
Qed.

Lemma digits_fold_acc (d : Decimal.uint) (acc : positive) :
  fold_left (fun a c => (10 * a + default 0 (uni_decimal U c))%Z)
    (map Ascii.N_of_ascii (String.list_ascii_of_string (NilEmpty.string_of_uint d)))
    (Z.pos acc)
  = Z.pos (Pos.of_uint_acc d acc).
Proof.
  revert acc. induction d; intros acc; [done | ..];
    cbn [NilEmpty.string_of_uint String.list_ascii_of_string map fold_left
         Pos.of_uint_acc];
    rewrite <- IHd; f_equal.
  all: match goal with
       | |- context [uni_decimal U (Ascii.N_of_ascii ?a)] =>
         let v := eval vm_compute in (Ascii.N_of_ascii a - 48) in
         change (Ascii.N_of_ascii a) with (48 + v);
         rewrite (decimal_of_digit_code v) by (vm_compute; reflexivity)
       end.
  all: cbn [default from_option id]; lia.
Qed.

Lemma digits_fold (d : Decimal.uint) :
  fold_left (fun a c => (10 * a + default 0 (uni_decimal U c))%Z)
    (map Ascii.N_of_ascii (String.list_ascii_of_string (NilEmpty.string_of_uint d)))
    0%Z
  = Z.of_N (Pos.of_uint d).
Proof.
  induction d; [done | ..];
    cbn [NilEmpty.string_of_uint String.list_ascii_of_string map fold_left
         Pos.of_uint].
  all: match goal with
       | |- context [uni_decimal U (Ascii.N_of_ascii ?a)] =>
         let v := eval vm_compute in (Ascii.N_of_ascii a - 48) in
         change (Ascii.N_of_ascii a) with (48 + v);
         rewrite (decimal_of_digit_code v) by (vm_compute; reflexivity)
       end.
  all: cbn [default from_option id Z.of_N Z.mul Z.add].
  - exact IHd.
  - apply (digits_fold_acc d 1).
  - apply (digits_fold_acc d 2).
  - apply (digits_fold_acc d 3).
  - apply (digits_fold_acc d 4).
  - apply (digits_fold_acc d 5).
  - apply (digits_fold_acc d 6).
  - apply (digits_fold_acc d 7).
  - apply (digits_fold_acc d 8).
  - apply (digits_fold_acc d 9).
Qed.

Lemma digits_all_decimal (d : Decimal.uint) :
  filter (fun c => is_decimal U c = true)
    (map Ascii.N_of_ascii (String.list_ascii_of_string (NilEmpty.string_of_uint d)))
  = map Ascii.N_of_ascii (String.list_ascii_of_string (NilEmpty.string_of_uint d)).
Proof.
  induction d; [done | ..];
    cbn [NilEmpty.string_of_uint String.list_ascii_of_string map];
    (rewrite filter_cons_True; [by rewrite IHd |]);
    unfold is_decimal;
    match goal with
    | |- context [uni_decimal U (Ascii.N_of_ascii ?a)] =>
      let v := eval vm_compute in (Ascii.N_of_ascii a - 48) in
      change (Ascii.N_of_ascii a) with (48 + v);
      rewrite (decimal_of_digit_code v) by (vm_compute; reflexivity)
    end; done.
Qed.

(** X16. What [format_message] prints for a number, [clean_int] reads back:
    the digits of [str(n)] give [n] again, except that a minus sign is
    dropped, so a negative number comes back as its absolute value. *)
Theorem clean_int_of_str (n : Z) :
  clean_int U (Some (str_of_int n)) = Some (Z.abs n).
Proof.
  rewrite (clean_int_digits U HU). unfold str_of_int.
  assert (forall p,
    NilZero.string_of_uint (Pos.to_uint p) = NilEmpty.string_of_uint (Pos.to_uint p))
    as Hnz.
  { intros p. pose proof (Unsigned.to_uint_nonnil p) as Hp.
    unfold NilZero.string_of_uint. by destruct (Pos.to_uint p). }
  assert (forall p,
    match map Ascii.N_of_ascii
            (String.list_ascii_of_string (NilEmpty.string_of_uint (Pos.to_uint p))) with
    | [] => None
    | c :: l => Some (int_of_digits U (c :: l))
    end = Some (Z.pos p)) as Hpos.
  { intros p. pose proof (digits_fold (Pos.to_uint p)) as Hf.
    rewrite Unsigned.of_to in Hf.
    pose proof (Unsigned.to_uint_nonnil p) as Hp.
    destruct (map _ _) as [|c l] eqn:E.
    - destruct (Pos.to_uint p); try done; discriminate.
    - unfold int_of_digits. by rewrite Hf. }
  destruct n as [|p|p]; cbn [Z.to_int NilZero.string_of_int Z.abs].
  - vm_compute (map _ _). rewrite filter_cons_True, filter_nil.
    + unfold int_of_digits. cbn [fold_left].
      change 48 with (48 + 0). rewrite (decimal_of_digit_code 0) by done. done.
    + unfold is_decimal. change 48 with (48 + 0).
      by rewrite (decimal_of_digit_code 0).
  - rewrite Hnz, digits_all_decimal. apply Hpos.
  - rewrite Hnz. cbn [String.list_ascii_of_string map].
    rewrite filter_cons_False, digits_all_decimal; [apply Hpos |].
    unfold is_decimal. rewrite (conf_decimal U HU) by done.
    vm_compute. discriminate.
Qed.

End NormalizationMore.

(* ===================================================================== *)
(** * Further properties: the dedup key *)
(* ===================================================================== *)

Lemma utf8_decode_encode_char (c : N) (rest : list N) :
  c < 2097152 ->
  utf8_decode (utf8_encode_char c ++ rest) = c :: utf8_decode rest.
Proof.
  intros Hc. unfold utf8_encode_char.
  destruct (N.ltb_spec c 128) as [H1 | H1].
  { cbn [app utf8_decode]. by rewrite (proj2 (N.ltb_lt c 128)). }
  destruct (N.ltb_spec c 2048) as [H2 | H2].
  { cbn [app utf8_decode].
    pose proof (N.Div0.div_mod c 64) as Hdm.
    pose proof (N.mod_upper_bound c 64 ltac:(lia)) as Hm.
    assert (c / 64 < 32) by (apply N.Div0.div_lt_upper_bound; lia).
    assert (2 <= c / 64) by (apply N.div_le_lower_bound; lia).
    rewrite (proj2 (N.ltb_ge (192 + c / 64) 128)) by lia.
    rewrite (proj2 (N.ltb_lt (192 + c / 64) 224)) by lia.
    f_equal. generalize dependent (c / 64). generalize dependent (c mod 64).
    intros; lia. }
  destruct (N.ltb_spec c 65536) as [H3 | H3].
  { cbn [app utf8_decode].
    pose proof (N.Div0.div_mod c 64) as Hdm.
    pose proof (N.mod_upper_bound c 64 ltac:(lia)) as Hm.
    pose proof (N.Div0.div_mod (c / 64) 64) as Hdm2.
    pose proof (N.mod_upper_bound (c / 64) 64 ltac:(lia)) as Hm2.
    assert (c / 4096 = c / 64 / 64) as Hq by (rewrite N.Div0.div_div; done).
    assert (c / 4096 < 16) by (apply N.Div0.div_lt_upper_bound; lia).
    rewrite (proj2 (N.ltb_ge (224 + c / 4096) 128)) by lia.
    rewrite (proj2 (N.ltb_ge (224 + c / 4096) 224)) by lia.
    rewrite (proj2 (N.ltb_lt (224 + c / 4096) 240)) by lia.
    f_equal. rewrite Hq in *.
    generalize dependent (c / 64 / 64). generalize dependent (c / 64 mod 64).
    generalize dependent (c / 64). generalize dependent (c mod 64).
    intros; lia. }
  cbn [app utf8_decode].
  pose proof (N.Div0.div_mod c 64) as Hdm.
  pose proof (N.mod_upper_bound c 64 ltac:(lia)) as Hm.
  pose proof (N.Div0.div_mod (c / 64) 64) as Hdm2.
  pose proof (N.mod_upper_bound (c / 64) 64 ltac:(lia)) as Hm2.
  pose proof (N.Div0.div_mod (c / 4096) 64) as Hdm3.
  pose proof (N.mod_upper_bound (c / 4096) 64 ltac:(lia)) as Hm3.
  assert (c / 4096 = c / 64 / 64) as Hq by (rewrite N.Div0.div_div; done).
  assert (c / 262144 = c / 4096 / 64) as Hq2 by (rewrite N.Div0.div_div; done).
  assert (c / 262144 < 8) by (apply N.Div0.div_lt_upper_bound; lia).
  rewrite (proj2 (N.ltb_ge (240 + c / 262144) 128)) by lia.
  rewrite (proj2 (N.ltb_ge (240 + c / 262144) 224)) by lia.
  rewrite (proj2 (N.ltb_ge (240 + c / 262144) 240)) by lia.
  f_equal. rewrite Hq2 in *. rewrite Hq in *.
  generalize dependent (c / 64 / 64 / 64).
  generalize dependent (c / 64 / 64 mod 64).
  generalize dependent (c / 64 / 64). generalize dependent (c / 64 mod 64).
  generalize dependent (c / 64). generalize dependent (c mod 64).
  intros; lia.
Qed.

Lemma utf8_decode_encode (s : list N) :
  Forall (fun c => c < 1114112) s -> utf8_decode (utf8_encode s) = s.
Proof.
  intros Hs. unfold utf8_encode. induction Hs as [|c s Hc _ IH]; [done |].
  cbn [map concat]. rewrite utf8_decode_encode_char by lia. by rewrite IH.
Qed.

(** X17. Two URLs get the same key only if they are the same URL or the
    digest collides on their (different) UTF-8 encodings: the encoding
    step of [dedup_key] loses nothing. *)
Theorem dedup_key_collision (sha256_hexdigest : list N -> list N) (a b : list N) :
  Forall (fun c => c < 55296 \/ 57344 <= c < 1114112) a ->
  Forall (fun c => c < 55296 \/ 57344 <= c < 1114112) b ->
  dedup_key sha256_hexdigest a = dedup_key sha256_hexdigest b ->
  a = b \/
  (utf8_encode a <> utf8_encode b /\
   sha256_hexdigest (utf8_encode a) = sha256_hexdigest (utf8_encode b)).
Proof.
  intros Ha Hb Hkey.
  destruct (decide (utf8_encode a = utf8_encode b)) as [Heq | Hne]; [left | by right].
  rewrite <- (utf8_decode_encode a), <- (utf8_decode_encode b).
  - by rewrite Heq.
  - eapply Forall_impl; [exact Hb |]. intros c Hc. cbn in Hc. lia.
  - eapply Forall_impl; [exact Ha |]. intros c Hc. cbn in Hc. lia.
Qed.

Lemma dedup_key_collision_witness :
  let a := [104; 116; 116; 112; 58; 47; 47; 945; 46; 103; 114; 47; 49] in
  let b := [104; 116; 116; 112; 58; 47; 47; 945; 46; 103; 114; 47; 50] in
  a = b \/
  (utf8_encode a <> utf8_encode b /\
   (fun _ : list N => @nil N) (utf8_encode a) = (fun _ : list N => @nil N) (utf8_encode b)).
Proof.
  intros a b. apply (dedup_key_collision (fun _ => []) a b).
  - repeat (constructor; [left; reflexivity |]). constructor.
  - repeat (constructor; [left; reflexivity |]). constructor.
  - reflexivity.
Defined.

(* ===================================================================== *)
(** * Further properties: texts without digits *)
(* ===================================================================== *)

Lemma repeat_loop_fails (body : (mstate -> option mstate) -> mstate -> option mstate)
    (lo : nat) (hi : option nat) (k : mstate -> option mstate) :
  (forall k' s', (forall x, digit_free x -> k' x = None) -> digit_free s' ->
                 body k' s' = None) ->
  (forall x, digit_free x -> k x = None) ->
  forall fuel count s, digit_free s -> repeat_loop body lo hi k fuel count s = None.
Proof.
  intros Hbody Hk. induction fuel as [|fuel IH]; intros count s Hs; cbn [repeat_loop].
  - rewrite (Hk s Hs). by destruct (lo <=? count)%nat.
  - rewrite (Hk s Hs).
    rewrite (Hbody (repeat_loop body lo hi k fuel (S count)) s) by (intros; by apply IH || done).
    by destruct (below count hi), (lo <=? count)%nat.
Qed.

Lemma step_char_fails (test : uchar -> bool) (k : mstate -> option mstate) (s : mstate) :
  (forall x, digit_free x -> k x = None) -> digit_free s -> step_char test k s = None.
Proof.
  intros Hk Hs. unfold step_char. unfold digit_free in Hs.
  destruct (m_rest s) as [|c tl] eqn:E; [done |].
  destruct (test c); [| done]. apply Hk. unfold digit_free. cbn.
  by inversion Hs.
Qed.

Lemma m_fails (r : regex) :
  forall k s, (forall x, digit_free x -> k x = None) -> digit_free s -> m r k s = None.
Proof.
  induction r as [| c | los | neg items | | r1 IH1 r2 IH2 | r1 IH1 r2 IH2
                 | lo hi r1 IH1 | n r1 IH1]; intros k s Hk Hs; cbn [m].
  - by apply Hk.
  - by apply step_char_fails.
  - by apply step_char_fails.
  - by apply step_char_fails.
  - destruct (at_boundary s); [by apply Hk | done].
  - apply IH1; [| done]. intros x Hx. by apply IH2.
  - rewrite IH1, IH2 by done. done.
  - apply repeat_loop_fails; [| done | done]. intros k' s' Hk' Hs'. by apply IH1.
  - apply IH1; [| done]. intros x Hx. apply Hk. exact Hx.
Qed.

Lemma digits_only_test (items : list cset_item) (c : uchar) :
  forallb digits_only items = true ->
  is_ascii_digit (u_code c) = false ->
  in_set false items c = false.
Proof.
  intros Hitems Hc. unfold in_set. cbn [xorb].
  induction items as [|i items IH]; [done |].
  cbn [forallb] in Hitems. apply andb_true_iff in Hitems as [Hi Hitems].
  cbn [existsb]. rewrite (IH Hitems), orb_false_r.
  destruct i as [lo hi | x |]; try discriminate.
  cbn [digits_only] in Hi. cbn [item_test]. unfold is_ascii_digit in Hc.
  apply andb_true_iff in Hi as [Hlo Hhi].
  apply N.leb_le in Hlo. apply N.leb_le in Hhi.
  apply andb_false_iff. apply andb_false_iff in Hc.
  destruct Hc as [Hc | Hc]; apply N.leb_gt in Hc; [left | right]; apply N.leb_gt; lia.
Qed.

Lemma m_demands (r : regex) :
  demands_digit r = true ->
  forall k s, digit_free s -> m r k s = None.
Proof.
  induction r as [| c | los | neg items | | r1 IH1 r2 IH2 | r1 IH1 r2 IH2
                 | lo hi r1 IH1 | n r1 IH1]; intros Hd k s Hs; cbn [m];
    cbn [demands_digit] in Hd; try discriminate.
  - apply andb_true_iff in Hd as [Hneg Hitems].
    destruct neg; [discriminate |].
    unfold step_char. unfold digit_free in Hs.
    destruct (m_rest s) as [|c tl]; [done |].
    rewrite digits_only_test; [done | done |]. by inversion Hs.
  - apply orb_true_iff in Hd as [Hd | Hd].
    + by apply IH1.
    + apply m_fails; [| done]. intros x Hx. by apply IH2.
  - apply andb_true_iff in Hd as [Hd1 Hd2]. by rewrite IH1, IH2.
  - apply andb_true_iff in Hd as [Hlo Hd].
    destruct lo as [|lo]; [discriminate |].
    cbn [repeat_loop Nat.leb].
    rewrite IH1 by done. by destruct (below 0 hi).
  - by apply IH1.
Qed.

Lemma search_demands (U : UnicodeData) (r : regex) (text : list N) :
  demands_digit r = true ->
  Forall (fun c => is_ascii_digit c = false) text ->
  search U r text = None.
Proof.
  intros Hd Htext. unfold search.
  assert (forall rest prev pos,
    Forall (fun c => is_ascii_digit (u_code c) = false) rest ->
    search_from r prev rest pos = None) as Hfrom.
  { induction rest as [|c tl IH]; intros prev pos Hrest; cbn [search_from].
    - by rewrite m_demands.
    - rewrite m_demands by done. apply IH. by inversion Hrest. }
  rewrite Hfrom; [done |].
  apply Forall_map. eapply Forall_impl; [exact Htext |]. by intros c Hc.
Qed.

(** X18. A text without an ASCII digit yields no field at all: every pattern
    asks for a digit, so each of the five searches finds nothing and the
    three values are [None]. *)
Theorem digit_free_text_has_no_fields (U : UnicodeData) (text : list N) :
  Forall (fun c => is_ascii_digit c = false) text ->
  dict_get (extract_fields U text) "land_m2" = None /\
  dict_get (extract_fields U text) "price_eur" = None /\
  dict_get (extract_fields U text) "area_m2" = None.
Proof.
  intros Htext.
  rewrite fields_land, fields_price, fields_area.
  rewrite (search_demands U price_pattern) by (vm_compute; reflexivity || done).
  rewrite (search_demands U area_pattern) by (vm_compute; reflexivity || done).
  split; [| done].
  unfold land_patterns. cbn [land_loop].
  rewrite (search_demands U land_pattern_en) by (vm_compute; reflexivity || done).
  rewrite (search_demands U land_pattern_lot) by (vm_compute; reflexivity || done).
  rewrite (search_demands U land_pattern_gr) by (vm_compute; reflexivity || done).
  done.
Qed.

Lemma digit_free_text_has_no_fields_witness :
  dict_get (extract_fields reference [80; 108; 111; 116; 32; 97; 114; 101; 97; 58; 32; 110; 47; 97])
           "land_m2" = None.
Proof.
  apply (digit_free_text_has_no_fields reference
           [80; 108; 111; 116; 32; 97; 114; 101; 97; 58; 32; 110; 47; 97]).
  repeat (constructor; [reflexivity |]). constructor.
Defined.

(* ===================================================================== *)
(** * Further properties: numbers written in groups of three *)
(* ===================================================================== *)

Lemma separator_test (U : UnicodeData) (c : N) :
  in_set false [CLit 46; CLit 44; CSpace] (classify U c) = separator c.
Proof. unfold in_set, separator. cbn. by rewrite orb_false_r, orb_assoc. Qed.

Lemma digit_class_test (U : UnicodeData) (c : N) :
  in_set false [CRange 48 57] (classify U c) = is_ascii_digit c.
Proof. unfold in_set, is_ascii_digit. cbn. by rewrite orb_false_r. Qed.

Lemma separator_not_digit (c : N) : separator c = true -> is_ascii_digit c = false.
Proof.
  unfold separator. intros H.
  apply orb_true_iff in H as [H | H]; [| by apply isspace_not_ascii_digit].
  apply orb_true_iff in H as [H | H]; apply N.eqb_eq in H; by subst.
Qed.

Section Grouped.
Context (U : UnicodeData).

(** One more group is taken when the subject goes on with one. *)
Lemma group_iter (k : mstate -> option mstate) (s x : mstate)
    (s0 a b c : N) (rest : list N) :
  m_rest s = map (classify U) (s0 :: a :: b :: c :: rest) ->
  group_ok (s0, a, b, c) ->
  k (consume (map (classify U) [s0; a; b; c]) s) = Some x ->
  m (Seq (In_ false [CLit 46; CLit 44; CSpace]) (Repeat 3 (Some 3%nat) digit))
    k s = Some x.
Proof.
  intros Hrest (Hs & Ha & Hb & Hc) Hk. cbn [m].
  rewrite (step_char_hit _ _ s (classify U s0) (map (classify U) (a :: b :: c :: rest)));
    [| done | by rewrite separator_test].
  apply (repeat_run _ (in_set false [CRange 48 57]) _ _ _
           (map (classify U) [a; b; c]) (map (classify U) rest));
    try done.
  - repeat constructor; by rewrite digit_class_test.
  - cbn. by rewrite Hrest.
  - by left.
  - cbn [consume m_rest]. rewrite Hrest. cbn [map tail length]. lia.
Qed.

(** No group is taken when the subject does not go on with one. *)
Lemma group_iter_fail (k : mstate -> option mstate) (s : mstate) (rest : list N) :
  m_rest s = map (classify U) rest ->
  starts_group rest = false ->
  m (Seq (In_ false [CLit 46; CLit 44; CSpace]) (Repeat 3 (Some 3%nat) digit))
    k s = None.
Proof.
  intros Hrest Hstop. unfold digit. cbn [m]. unfold step_char at 1. rewrite Hrest.
  destruct rest as [|s0 rest]; [done |]. cbn [map].
  rewrite separator_test. destruct (separator s0) eqn:Hs0; [| done].
  cbn [m_rest length repeat_loop below Nat.leb Nat.ltb m].
  unfold step_char at 1. cbn [m_rest].
  destruct rest as [|a rest]; [done |]. cbn [map].
  rewrite digit_class_test. destruct (is_ascii_digit a) eqn:Ha; [| done].
  cbn [m_rest length repeat_loop below Nat.leb Nat.ltb m].
  unfold step_char at 1. cbn [m_rest].
  destruct rest as [|b rest]; [done |]. cbn [map].
  rewrite digit_class_test. destruct (is_ascii_digit b) eqn:Hb; [| done].
  cbn [m_rest length repeat_loop below Nat.leb Nat.ltb m].
  unfold step_char at 1. cbn [m_rest].
  destruct rest as [|c rest]; [done |]. cbn [map].
  rewrite digit_class_test. destruct (is_ascii_digit c) eqn:Hc; [| done].
  cbn in Hstop. rewrite Hs0, Ha, Hb, Hc in Hstop. discriminate.
Qed.

(** The greedy loop over the groups takes them all. *)
Lemma groups_loop (k : mstate -> option mstate) (x : mstate) (rest : list N)
    (gs : list (N * N * N * N)) :
  Forall group_ok gs ->
  starts_group rest = false ->
  forall (s : mstate) (fuel count : nat),
  m_rest s = map (classify U) (thousands gs ++ rest) ->
  (length gs < fuel)%nat ->
  k (consume (map (classify U) (thousands gs)) s) = Some x ->
  repeat_loop
    (m (Seq (In_ false [CLit 46; CLit 44; CSpace]) (Repeat 3 (Some 3%nat) digit)))
    0 None k fuel count s = Some x.
Proof.
  intros Hgs Hstop. induction Hgs as [|[[[s0 a] b] c] gs Hg _ IH];
    intros s fuel count Hrest Hfuel Hk.
  - destruct fuel as [|fuel]; [cbn in Hfuel; lia |].
    cbn [repeat_loop below Nat.leb].
    rewrite (group_iter_fail _ s rest) by done. exact Hk.
  - destruct fuel as [|fuel]; [cbn in Hfuel; lia |].
    cbn [repeat_loop below Nat.leb].
    rewrite (group_iter _ s x s0 a b c (thousands gs ++ rest)); [done | done | done |].
    apply IH.
    + apply consume_rest. rewrite Hrest. cbn [thousands flat_map].
      by rewrite <- app_assoc.
    + cbn [length] in Hfuel. lia.
    + rewrite <- consume_app, <- map_app. exact Hk.
Qed.

(** The number sub-pattern on one to three digits followed by groups of
    a separator and three digits: the whole is captured. *)
Lemma number_grouped (n : nat) (k : mstate -> option mstate) (s x : mstate)
    (lead rest : list N) (gs : list (N * N * N * N)) :
  m_rest s = map (classify U) (lead ++ thousands gs ++ rest) ->
  Forall (fun c => is_ascii_digit c = true) lead ->
  (1 <= length lead <= 3)%nat ->
  Forall group_ok gs ->
  match rest with [] => True | c :: _ => is_ascii_digit c = false end ->
  starts_group rest = false ->
  k (close_group n (m_pos s) (consume (map (classify U) (lead ++ thousands gs)) s)) = Some x ->
  m (Group n number) k s = Some x.
Proof.
  intros Hrest Hlead Hlen Hgs Hend Hstop Hk.
  cbn [m number].
  apply (repeat_run _ (in_set false [CRange 48 57]) _ _ _ (map (classify U) lead)
           (map (classify U) (thousands gs ++ rest))); try done.
  - apply Forall_map. eapply Forall_impl; [exact Hlead |].
    intros c Hc. by rewrite digit_class_test.
  - by rewrite Hrest, map_app.
  - rewrite length_map. cbn. lia.
  - right. destruct gs as [|[[[s0 a] b] c] gs].
    + cbn [thousands flat_map app]. destruct rest as [|c rest]; [done |].
      cbn [map]. by rewrite digit_class_test.
    + cbn [thousands flat_map app map]. rewrite digit_class_test.
      apply separator_not_digit. by apply Forall_cons in Hgs as [(? & _) _].
  - rewrite length_map. cbn. lia.
  - rewrite Hrest, !length_map, length_app. lia.
  - set (s1 := consume (map (classify U) lead) s).
    assert (m_rest s1 = map (classify U) (thousands gs ++ rest)) as Hr1.
    { apply consume_rest. by rewrite Hrest, map_app. }
    apply (groups_loop _ x rest gs); try done.
    + rewrite Hr1, length_map, length_app.
      assert (length gs <= length (thousands gs))%nat as Hle.
      { clear. unfold thousands.
        induction gs as [|[[[? ?] ?] ?] gs IH]; cbn [flat_map app length]; lia. }
      lia.
    + subst s1. rewrite <- consume_app, <- map_app. exact Hk.
Qed.

End Grouped.

Lemma slice_middle (pre num rest : list N) (i : nat) :
  i = length pre ->
  slice (pre ++ num ++ rest) i (i + length num) = num.
Proof.
  intros ->. unfold slice. rewrite drop_app_length.
  replace (length pre + length num - length pre)%nat with (length num) by lia.
  by rewrite take_app_length.
Qed.

(** A pattern made of a label part and the common tail, on a subject
    that starts with the label, goes on with a run of the tail's class
    and then has a number written in groups of three: the match starts
    at 0 and the number group spans the whole number. *)
Lemma label_then_grouped (U : UnicodeData) (HU : conforms U)
    (r : regex) (label : list N) (prev : option uchar)
    (caps0 : list (nat * (nat * nat))) (n : nat) (hi : option nat)
    (neg : bool) (items : list cset_item) (side : list uchar -> Prop) :
  forallb tabulated label = true ->
  (forall X x,
     side X ->
     m (Seq (Repeat 0 hi (In_ neg items)) (Group n number)) Some
       {| m_prev := prev; m_rest := X; m_pos := length label; m_caps := caps0 |}
       = Some x ->
     m r Some (start_state None (map (classify reference) label ++ X) 0) = Some x) ->
  forall (run lead rest : list N) (gs : list (N * N * N * N)),
  side (map (classify U) (run ++ (lead ++ thousands gs) ++ rest)) ->
  Forall (fun c => in_set neg items (classify U c) = true) run ->
  match hi with Some h => (length run <= h)%nat | None => True end ->
  Forall (fun c => in_set neg items (classify U c) = false) lead ->
  Forall (fun c => is_ascii_digit c = true) lead ->
  (1 <= length lead <= 3)%nat ->
  Forall group_ok gs ->
  match rest with [] => True | c :: _ => is_ascii_digit c = false end ->
  starts_group rest = false ->
  search U r (label ++ run ++ (lead ++ thousands gs) ++ rest) =
    Some {| mt_string := label ++ run ++ (lead ++ thousands gs) ++ rest;
            mt_ngroups := ngroups r; mt_start := 0;
            mt_end := length label + length run + length (lead ++ thousands gs);
            mt_caps :=
              (n, ((length label + length run)%nat,
                   (length label + length run + length (lead ++ thousands gs))%nat))
                :: caps0 |}.
Proof.
  intros Hlabel Hprefix run lead rest gs Hside Hrun Hhi Hout Hlead Hlen Hgs Hend Hstop.
  set (num := lead ++ thousands gs) in *.
  set (s0 := {| m_prev := prev;
                m_rest := map (classify U) (run ++ num ++ rest);
                m_pos := length label; m_caps := caps0 |}).
  set (s1 := consume (map (classify U) run) s0).
  set (final := close_group n (m_pos s1) (consume (map (classify U) num) s1)).
  assert (m_rest s1 = map (classify U) (num ++ rest)) as Hr1.
  { apply consume_rest. cbn. by rewrite map_app. }
  assert (m (Seq (Repeat 0 hi (In_ neg items)) (Group n number)) Some s0 = Some final)
    as Hm.
  { cbn [m].
    apply (repeat_run _ (in_set neg items) _ _ _ (map (classify U) run)
             (map (classify U) (num ++ rest))); try done.
    - by apply Forall_map.
    - cbn. by rewrite map_app.
    - by rewrite length_map.
    - right. subst num. destruct lead as [|c lead]; [cbn in Hlen; lia |].
      cbn. by apply Forall_cons in Hout as [? _].
    - lia.
    - cbn [m_rest s0]. rewrite !length_map, length_app. lia.
    - apply (number_grouped U n Some s1 final lead rest gs); try done.
      rewrite Hr1. subst num. by rewrite <- app_assoc. }
  assert (m_pos final = (length label + length run + length num)%nat) as Hpos.
  { subst final s1. cbn. rewrite !consume_pos, !length_map. cbn. lia. }
  assert (m_caps final =
          (n, ((length label + length run)%nat,
               (length label + length run + length num)%nat)) :: caps0) as Hcaps.
  { subst final s1. cbn. rewrite !consume_pos, !consume_caps, !length_map. cbn.
    do 3 f_equal. }
  rewrite <- Hcaps, <- Hpos. apply search_at_start.
  rewrite map_app, (classify_tabulated U HU label Hlabel).
  by apply Hprefix.
Qed.

Section DigitsValue.
Context (U : UnicodeData) (HU : conforms U).

Lemma ascii_digit_value (d : N) :
  is_ascii_digit d = true -> uni_decimal U d = Some ((Z.of_N d - 48)%Z).
Proof.
  intros Hdig. rewrite (conf_decimal U HU).
  - unfold ref_decimal. rewrite Hdig. f_equal.
    unfold is_ascii_digit in Hdig. apply andb_true_iff in Hdig as [H1 _].
    apply N.leb_le in H1. lia.
  - unfold tabulated. unfold is_ascii_digit in Hdig.
    apply andb_true_iff in Hdig as [_ H2]. apply N.leb_le in H2.
    assert ((d <? 128) = true) as -> by (apply N.ltb_lt; lia). done.
Qed.

Lemma separator_not_decimal (c : N) : separator c = true -> is_decimal U c = false.
Proof.
  unfold separator. intros H.
  apply orb_true_iff in H as [H | H]; [| by apply (space_not_decimal U HU)].
  unfold is_decimal.
  apply orb_true_iff in H as [H | H]; apply N.eqb_eq in H; subst;
    by rewrite (conf_decimal U HU).
Qed.

Lemma digit_is_decimal (d : N) : is_ascii_digit d = true -> is_decimal U d = true.
Proof. intros Hd. unfold is_decimal. by rewrite (ascii_digit_value d Hd). Qed.

Lemma filter_digits (ds : list N) :
  Forall (fun c => is_ascii_digit c = true) ds ->
  filter (fun c => is_decimal U c = true) ds = ds.
Proof.
  induction 1 as [|d ds Hd _ IH]; [done |].
  rewrite filter_cons_True by by apply digit_is_decimal. by rewrite IH.
Qed.

Lemma filter_thousands (gs : list (N * N * N * N)) :
  Forall group_ok gs ->
  filter (fun c => is_decimal U c = true) (thousands gs) = group_digits gs.
Proof.
  unfold thousands, group_digits.
  induction 1 as [|[[[s a] b] c] gs' (Hs & Ha & Hb & Hc) _ IH]; [done |].
  cbn [flat_map]. rewrite filter_app, IH. f_equal.
  rewrite filter_cons_False by by rewrite separator_not_decimal.
  apply filter_digits. by repeat constructor.
Qed.

Lemma group_digits_digits (gs : list (N * N * N * N)) :
  Forall group_ok gs ->
  Forall (fun c => is_ascii_digit c = true) (group_digits gs).
Proof.
  unfold group_digits.
  induction 1 as [|[[[s a] b] c] gs' (Hs & Ha & Hb & Hc) _ IH]; [constructor |].
  cbn [flat_map app]. by repeat constructor.
Qed.

Lemma int_of_ascii_digits (ds : list N) :
  Forall (fun c => is_ascii_digit c = true) ds ->
  int_of_digits U ds = decimal_value ds.
Proof.
  intros Hds. unfold int_of_digits, decimal_value.
  assert (forall acc,
    fold_left (fun a c => (10 * a + default 0 (uni_decimal U c))%Z) ds acc =
    fold_left (fun a d => (10 * a + (Z.of_N d - 48))%Z) ds acc) as H; [| apply H].
  induction Hds as [|d ds Hd _ IH]; intros acc; [done |].
  cbn [fold_left]. rewrite (ascii_digit_value d Hd).
  cbn [default from_option]. unfold id. apply IH.
Qed.

(** [clean_int] on a number written in groups of three. *)
Lemma clean_int_grouped (lead : list N) (gs : list (N * N * N * N)) :
  Forall (fun c => is_ascii_digit c = true) lead ->
  lead <> [] ->
  Forall group_ok gs ->
  clean_int U (Some (lead ++ thousands gs)) =
    Some (decimal_value (lead ++ group_digits gs)).
Proof.
  intros Hlead Hne Hgs.
  rewrite (clean_int_digits U HU), filter_app, (filter_thousands gs Hgs),
    (filter_digits lead Hlead).
  destruct (lead ++ group_digits gs) as [|d ds] eqn:E.
  { destruct lead; [done | discriminate]. }
  rewrite <- E. f_equal. apply int_of_ascii_digits.
  apply Forall_app. split; [done | by apply group_digits_digits].
Qed.

End DigitsValue.

Section Separated.
Context (U : UnicodeData) (HU : conforms U).
Context (c0 : N) (sep ws lead rest : list N) (gs : list (N * N * N * N)).
Context (Hc0 : uni_isalnum U c0 = false) (Hus : c0 <> 95).
Context (Hsep : Forall (fun c => is_ascii_digit c = false) (c0 :: sep)).
Context (Hlen : (length (c0 :: sep) <= 80)%nat).
Context (Hws : Forall (fun c => uni_isspace c = true) ws).
Context (Hlead : Forall (fun c => is_ascii_digit c = true) lead).
Context (Hlead3 : (1 <= length lead <= 3)%nat).
Context (Hgs : Forall group_ok gs).
Context (Hend : match rest with [] => True | c :: _ => is_ascii_digit c = false end).
Context (Hstop : starts_group rest = false).

Lemma lead_not_non_digit :
  Forall (fun c => in_set true [CRange 48 57] (classify U c) = false) lead.
Proof.
  eapply Forall_impl; [exact Hlead |]. intros c Hc. cbn beta in Hc.
  by rewrite non_digit_test, Hc.
Qed.

Lemma lead_not_space :
  Forall (fun c => in_set false [CSpace] (classify U c) = false) lead.
Proof.
  eapply Forall_impl; [exact Hlead |]. intros c Hc. cbn beta in Hc.
  rewrite space_test. destruct (uni_isspace c) eqn:E; [| done].
  apply isspace_not_ascii_digit in E. congruence.
Qed.

Lemma label_side :
  is_word (head (map (classify U) ((c0 :: sep) ++ (lead ++ thousands gs) ++ rest)))
  = false.
Proof. cbn. rewrite Hc0. by apply N.eqb_neq. Qed.

Lemma label_run :
  Forall (fun c => in_set true [CRange 48 57] (classify U c) = true) (c0 :: sep).
Proof.
  eapply Forall_impl; [exact Hsep |]. intros c Hc. cbn beta in Hc.
  by rewrite non_digit_test, Hc.
Qed.

Lemma en_grouped_match :
  search U land_pattern_en
    (py "Plot area" ++ (c0 :: sep) ++ (lead ++ thousands gs) ++ rest) =
    Some {| mt_string := py "Plot area" ++ (c0 :: sep) ++ (lead ++ thousands gs) ++ rest;
            mt_ngroups := ngroups land_pattern_en; mt_start := 0;
            mt_end := length (py "Plot area") + length (c0 :: sep)
                      + length (lead ++ thousands gs);
            mt_caps := [(2%nat, ((length (py "Plot area") + length (c0 :: sep))%nat,
                                 (length (py "Plot area") + length (c0 :: sep)
                                  + length (lead ++ thousands gs))%nat));
                        (1%nat, (0%nat, 4%nat))] |}.
Proof.
  apply (label_then_grouped U HU land_pattern_en (py "Plot area")
           (Some (classify reference 97)) [(1%nat, (0%nat, 4%nat))] 2
           (Some 80%nat) true [CRange 48 57]
           (fun X => is_word (head X) = false)); try done.
  - intros X x HX HK. rewrite en_split. by apply en_label_run.
  - apply label_side.
  - apply label_run.
  - apply lead_not_non_digit.
Qed.

Lemma en_grouped_capture :
  search U land_pattern_en
    (py "Plot area" ++ (c0 :: sep) ++ (lead ++ thousands gs) ++ rest)
  ≫= (fun mt => group mt 2) = Some (lead ++ thousands gs).
Proof.
  rewrite en_grouped_match. cbn [mbind option_bind]. rewrite group_of_span. f_equal.
  rewrite app_assoc. apply slice_middle. by rewrite length_app.
Qed.

Lemma lot_grouped_capture :
  search U land_pattern_lot
    (py "Lot size" ++ (c0 :: sep) ++ (lead ++ thousands gs) ++ rest)
  ≫= (fun mt => group mt 1) = Some (lead ++ thousands gs).
Proof.
  rewrite (label_then_grouped U HU land_pattern_lot (py "Lot size")
             (Some (classify reference 101)) [] 1
             (Some 80%nat) true [CRange 48 57]
             (fun X => is_word (head X) = false)); try done.
  - cbn [mbind option_bind]. rewrite group_of_span. f_equal.
    rewrite app_assoc. apply slice_middle. by rewrite length_app.
  - intros X x HX HK. rewrite lot_split. by apply lot_label_run.
  - apply label_side.
  - apply label_run.
  - apply lead_not_non_digit.
Qed.

Lemma gr_grouped_capture :
  search U land_pattern_gr
    (py "Εμβαδόν οικοπέδου" ++ (c0 :: sep) ++ (lead ++ thousands gs) ++ rest)
  ≫= (fun mt => group mt 2) = Some (lead ++ thousands gs).
Proof.
  rewrite (label_then_grouped U HU land_pattern_gr (py "Εμβαδόν οικοπέδου")
             (Some (classify reference 965)) [(1%nat, (0%nat, 17%nat))] 2
             (Some 120%nat) true [CRange 48 57] (fun _ => True)); try done.
  - cbn [mbind option_bind]. rewrite group_of_span. f_equal.
    rewrite app_assoc. apply slice_middle. by rewrite length_app.
  - intros X x _ HK. rewrite gr_split. by apply gr_label_run.
  - apply label_run.
  - cbn [length] in *. lia.
  - apply lead_not_non_digit.
Qed.

Lemma price_grouped_match :
  search U price_pattern (py "€" ++ ws ++ (lead ++ thousands gs) ++ rest) =
    Some {| mt_string := py "€" ++ ws ++ (lead ++ thousands gs) ++ rest;
            mt_ngroups := ngroups price_pattern; mt_start := 0;
            mt_end := length (py "€") + length ws + length (lead ++ thousands gs);
            mt_caps := [(2%nat, ((length (py "€") + length ws)%nat,
                                 (length (py "€") + length ws
                                  + length (lead ++ thousands gs))%nat));
                        (1%nat, (0%nat, 1%nat))] |}.
Proof.
  apply (label_then_grouped U HU price_pattern (py "€")
           (Some (classify reference 8364)) [(1%nat, (0%nat, 1%nat))] 2
           None false [CSpace] (fun _ => True)); try done.
  - intros X x _ HK. rewrite price_split. by apply euro_label_run.
  - eapply Forall_impl; [exact Hws |]. intros c Hc. by rewrite space_test.
  - apply lead_not_space.
Qed.

Lemma price_grouped_capture :
  search U price_pattern (py "€" ++ ws ++ (lead ++ thousands gs) ++ rest)
  ≫= (fun mt => group mt 2) = Some (lead ++ thousands gs).
Proof.
  rewrite price_grouped_match. cbn [mbind option_bind]. rewrite group_of_span. f_equal.
  rewrite app_assoc. apply slice_middle. by rewrite length_app.
Qed.

Lemma lead_nonempty : lead <> [].
Proof. intros E. rewrite E in Hlead3. cbn in Hlead3. lia. Qed.

Lemma price_grouped_field :
  dict_get (extract_fields U (py "€" ++ ws ++ (lead ++ thousands gs) ++ rest))
    "price_eur"
  = Some (decimal_value (lead ++ group_digits gs)).
Proof.
  rewrite fields_price, price_grouped_match, group_of_span.
  rewrite app_assoc, slice_middle by by rewrite length_app.
  apply (clean_int_grouped U HU lead gs Hlead lead_nonempty Hgs).
Qed.

Lemma land_grouped_field :
  decimal_value (lead ++ group_digits gs) <> 0%Z ->
  dict_get (extract_fields U
              (py "Plot area" ++ (c0 :: sep) ++ (lead ++ thousands gs) ++ rest))
    "land_m2"
  = Some (decimal_value (lead ++ group_digits gs)).
Proof.
  intros Hnz. rewrite fields_land.
  unfold land_patterns. cbn [land_loop]. rewrite en_grouped_match. cbv zeta.
  replace (default None (last (groups _))) with (Some (lead ++ thousands gs)).
  - rewrite (clean_int_grouped U HU lead gs Hlead lead_nonempty Hgs). cbn [truthy].
    apply Z.eqb_neq in Hnz. by rewrite Hnz.
  - unfold groups. cbn [mt_ngroups].
    change (ngroups land_pattern_en) with 2%nat. cbn [seq map].
    rewrite last_two. cbn [default from_option]. unfold id. rewrite group_of_span.
    rewrite app_assoc, slice_middle by by rewrite length_app. done.
Qed.

End Separated.



(* ===================================================================== *)
(** * Further properties: instances *)
(* ===================================================================== *)

Lemma telegram_send_ok_iff_witness :
  let env := {| clock := fun _ => 0%Q;
                browser := fun _ => Rendered [] [];
                http_post := fun _ _ => Response 204 [] |} in
  snd (telegram_send (Scenario.config 0) env (py "Nouvelle annonce qualifiee")
         {| _seen := ∅; reads := 0; calls := [] |})
  = Raised (RuntimeError (py "Telegram error: " ++ str_of_int 204 ++ [32] ++ [])).
Proof.
  intros env.
  pose proof (telegram_send_ok_iff (Scenario.config 0) env
                (py "Nouvelle annonce qualifiee")
                {| _seen := ∅; reads := 0; calls := [] |}) as H.
  cbv zeta in H. destruct H as (_ & _ & H).
  apply (H 204%Z []).
  - vm_compute. discriminate.
  - vm_compute. discriminate.
  - reflexivity.
  - discriminate.
Defined.

Lemma no_credentials_never_posts_witness :
  delivery default_config (Scenario.env_at 0 (py "Plot area: 500"))
    (py "Nouvelle annonce qualifiee")
  = Raised (RuntimeError (py "Missing TELEGRAM_BOT_TOKEN / TELEGRAM_CHAT_ID")).
Proof.
  pose proof (no_credentials_never_posts reference Scenario.digest default_config
                (Scenario.env_at 0 (py "Plot area: 500")) ∅ Scenario.listing
                (or_introl eq_refl)) as H.
  cbv zeta in H. exact (proj1 H (py "Nouvelle annonce qualifiee")).
Defined.

Lemma zero_threshold_never_filters_witness :
  snd (fst (serve reference Scenario.digest (Scenario.config 0)
              (Scenario.env_at 0 (py "Plot area: 0")) ∅ Scenario.listing))
  <> Ok (filtered_out (url Scenario.listing) 0).
Proof.
  apply (zero_threshold_never_filters reference Scenario.digest (Scenario.config 0)
           (Scenario.env_at 0 (py "Plot area: 0")) ∅ Scenario.listing).
  reflexivity.
Defined.

Lemma negative_ttl_never_skips_witness :
  let cfg := {| TELEGRAM_BOT_TOKEN := []; TELEGRAM_CHAT_ID := [];
                MIN_LAND_M2 := 0; DEDUP_TTL_SECONDS := -1;
                MAX_TEXT_CHARS := 250000; DISABLE_PREVIEW := false |} in
  let key := dedup_key Scenario.digest (url Scenario.listing) in
  snd (fst (serve reference Scenario.digest cfg (Scenario.env_at 5 (py "Plot area: 500"))
              {[ key := 5%Q ]} Scenario.listing))
  <> Ok dedup_skipped.
Proof.
  intros cfg key.
  apply (negative_ttl_never_skips reference Scenario.digest cfg
           (Scenario.env_at 5 (py "Plot area: 500")) {[ key := 5%Q ]} Scenario.listing).
  - reflexivity.
  - apply map_Forall_singleton. vm_compute. discriminate.
Defined.

Lemma fetch_page_text_caps_text_witness :
  let s := {| _seen := ∅; reads := 0; calls := [] |} in
  fst (fetch_page_text default_config (Scenario.env_at 0 (py "Plot area: 500"))
         (url Scenario.listing) s) = s.
Proof.
  intros s.
  apply (fetch_page_text_caps_text default_config
           (Scenario.env_at 0 (py "Plot area: 500")) (url Scenario.listing) s).
  vm_compute. discriminate.
Defined.

Lemma smoke_detector_is_weaker_witness :
  let env := {| clock := fun _ => 0%Q;
                browser := fun _ => Rendered (py "<title>Cloudflare</title>") [];
                http_post := fun _ _ => Response 200 [] |} in
  snd (fst (serve reference Scenario.digest (Scenario.config 0) env ∅ Scenario.listing))
  = Raised (HTTPException 403 (py "Blocked by challenge/CAPTCHA")).
Proof.
  intros env.
  pose proof (smoke_detector_is_weaker reference Scenario.digest (Scenario.config 0)
                env ∅ Scenario.listing (py "<title>Cloudflare</title>") []) as H.
  cbv zeta in H. destruct H as [_ H]. apply H.
  - vm_compute. reflexivity.
  - vm_compute. reflexivity.
  - reflexivity.
Defined.

Lemma clean_int_ignores_non_digits_witness :
  clean_int reference (Some ([49] ++ 46 :: [50; 48; 48]))
  = clean_int reference (Some ([49] ++ [50; 48; 48])).
Proof.
  apply (clean_int_ignores_non_digits reference reference_conforms [49] [50; 48; 48] 46).
  vm_compute. reflexivity.
Defined.

Lemma clean_int_of_str_witness :
  clean_int reference (Some (str_of_int (-2640))) = Some (Z.abs (-2640)).
Proof.
  apply (clean_int_of_str reference reference_conforms (-2640)).
Defined.
